(** * GnuCOBOL toolchain adapter (mesonbuild/compilers/cobol.py)

    A shallow embedding of [CobolCompiler]: the argument translator
    (pure functions from build parameters to command-line tokens), the
    in-place path normalisation of [-I]/[-L] tokens, and the sanity
    probe, together with the part of CPython's [posixpath] the adapter
    calls ([join], [normpath], [splitext]). *)

From Stdlib Require Import ZArith Ascii String Lia.
From Equations Require Import Equations.
From stdpp Require Import base list strings.

Local Open Scope Z_scope.

(** ** Python [str] values

    A [str] is modelled as a [string]; the operations below are the ones
    the adapter and [posixpath] use, with Python's clamping of slice
    bounds written out. *)

Module PyStr.

Fixpoint take (n : nat) (s : string) : string :=
  match n, s with
  | O, _ => ""
  | S _, EmptyString => ""
  | S n', String c r => String c (take n' r)
  end.

Fixpoint drop (n : nat) (s : string) : string :=
  match n, s with
  | O, _ => s
  | S _, EmptyString => ""
  | S n', String _ r => drop n' r
  end.

(** A slice bound [k] over a string of length [len]: negative bounds
    count from the end, and every bound is clamped to [0..len]. *)
Definition clamp (k : Z) (len : nat) : nat :=
  if k <? 0 then Z.to_nat (Z.max 0 (Z.of_nat len + k))
  else Z.to_nat (Z.min k (Z.of_nat len)).

(** [s[:hi]] *)
Definition slice_to (s : string) (hi : Z) : string :=
  take (clamp hi (String.length s)) s.

(** [s[lo:]] *)
Definition slice_from (s : string) (lo : Z) : string :=
  drop (clamp lo (String.length s)) s.

(** [s[lo:hi]] *)
Definition slice (s : string) (lo hi : Z) : string :=
  let l := clamp lo (String.length s) in
  let h := clamp hi (String.length s) in
  take (h - l) (drop l s).

(** [s.startswith(pre)] *)
Definition startswith (s pre : string) : bool := String.prefix pre s.

(** [s.endswith(suf)] *)
Definition endswith (s suf : string) : bool :=
  (String.length suf <=? String.length s)%nat
  && String.eqb (drop (String.length s - String.length suf) s) suf.

(** [s.rfind(c)] for a one-character needle: the highest index at which
    [c] occurs, or [-1]. *)
Fixpoint rfind (c : ascii) (s : string) : Z :=
  match s with
  | EmptyString => -1
  | String a r =>
      let k := rfind c r in
      if 0 <=? k then k + 1
      else if Ascii.eqb a c then 0 else -1
  end.

(** [s.split(c)] for a one-character separator: never empty, one more
    component than there are separators. *)
Fixpoint split (c : ascii) (s : string) : list string :=
  match s with
  | EmptyString => [""]
  | String a r =>
      if Ascii.eqb a c then "" :: split c r
      else match split c r with
           | h :: t => String a h :: t
           | [] => [String a ""]
           end
  end.

(** [sep.join(comps)] *)
Fixpoint join (sep : string) (comps : list string) : string :=
  match comps with
  | [] => ""
  | [x] => x
  | x :: xs => x +:+ sep +:+ join sep xs
  end.

(** [sep * n] *)
Fixpoint repeat (sep : string) (n : nat) : string :=
  match n with
  | O => ""
  | S n' => sep +:+ repeat sep n'
  end.

(** [c in s] for a character. *)
Fixpoint contains (c : ascii) (s : string) : bool :=
  match s with
  | EmptyString => false
  | String a r => Ascii.eqb a c || contains c r
  end.

(** Whether every character of [s] is [c] (used to state when a file
    name consists of dots only). *)
Fixpoint all_are (c : ascii) (s : string) : bool :=
  match s with
  | EmptyString => true
  | String a r => Ascii.eqb a c && all_are c r
  end.

End PyStr.

(** ** The part of [posixpath] used by the adapter

    [os.path] on a POSIX host.  [join] and [normpath] follow the
    library's Python text clause by clause; [splitext] is
    [genericpath._splitext] with [sep = '/'], no [altsep] and
    [extsep = '.']. *)

Module posixpath.
Import PyStr.

Definition sep : string := "/".
Definition extsep : string := ".".

(** [os.path.join(a, b)] with one trailing component:
    [if b.startswith(sep): path = b]
    [elif not path or path.endswith(sep): path += b]
    [else: path += sep + b]. *)
Definition join (a b : string) : string :=
  if startswith b sep then b
  else if String.eqb a "" || endswith a sep then a +:+ b
  else a +:+ sep +:+ b.

(** One iteration of the component loop of [normpath]:
    [if comp in ('', '.'): continue]
    [if (comp != '..' or (not initial_slashes and not new_comps) or
         (new_comps and new_comps[-1] == '..')): new_comps.append(comp)]
    [elif new_comps: new_comps.pop()]. *)
Definition normpath_step (initial_slashes : nat) (new_comps : list string)
    (comp : string) : list string :=
  if String.eqb comp "" || String.eqb comp "." then new_comps
  else if negb (String.eqb comp "..")
          || (Nat.eqb initial_slashes 0 && bool_decide (new_comps = []))
          || (negb (bool_decide (new_comps = []))
              && bool_decide (last new_comps = Some ".."))
  then new_comps ++ [comp]
  else if negb (bool_decide (new_comps = [])) then removelast new_comps
  else new_comps.

(** [initial_slashes]: 0 for a relative path, 2 for exactly two leading
    slashes, 1 for one or for three and more. *)
Definition initial_slashes_of (path : string) : nat :=
  if startswith path sep then
    if startswith path (PyStr.repeat sep 2)
       && negb (startswith path (PyStr.repeat sep 3))
    then 2%nat else 1%nat
  else 0%nat.

(** [os.path.normpath(path)] *)
Definition normpath (path : string) : string :=
  if String.eqb path "" then "."
  else
    let initial_slashes := initial_slashes_of path in
    let comps := split "/" path in
    let new_comps := foldl (normpath_step initial_slashes) [] comps in
    let path' := PyStr.join sep new_comps in
    let path' := if Nat.eqb initial_slashes 0 then path'
                 else PyStr.repeat sep initial_slashes +:+ path' in
    if String.eqb path' "" then "." else path'.

(** The scan of [genericpath._splitext] over the leading dots of the
    file name: [true] when a character other than a dot occurs in
    [p[filenameIndex:dotIndex]]. *)
Equations? skip_leading_dots (p : string) (filenameIndex dotIndex : Z) : bool
  by wf (Z.to_nat (dotIndex - filenameIndex)) lt :=
  skip_leading_dots p filenameIndex dotIndex with Z_lt_dec filenameIndex dotIndex => {
    | left _ :=
        if negb (String.eqb (slice p filenameIndex (filenameIndex + 1)) extsep)
        then true
        else skip_leading_dots p (filenameIndex + 1) dotIndex;
    | right _ := false }.
Proof. lia. Qed.

(** [os.path.splitext(p)]: the split is made at the last dot when it
    comes after the last slash and the scan finds a character other than
    a dot before it; otherwise the extension is empty. *)
Definition splitext (p : string) : string * string :=
  let sepIndex := rfind "/" p in
  let dotIndex := rfind "." p in
  if (sepIndex <? dotIndex) && skip_leading_dots p (sepIndex + 1) dotIndex
  then (slice_to p dotIndex, slice_from p dotIndex)
  else (p, slice_to p 0).

End posixpath.

(** ** The host: file system and child processes

    [sanity_check] writes one file and runs two child processes.  The
    host answers each call from the history of calls made so far; the
    probe threads that history and may stop with an exception. *)

Module Host.

Inductive event :=
| WriteFile (path content : string)
| Popen (args : list string) (cwd : string)
| Call (prog : string).

(** [OSError e]: the host refused call [e] (the file cannot be written,
    the program cannot be started). *)
Inductive exn :=
| EnvironmentException (msg : string)
| OSError (e : event).

Record t := {
  write_ok : list event -> string -> string -> bool;
  popen_returncode : list event -> list string -> string -> option Z;
  call_returncode : list event -> string -> option Z
}.

(** Computations over a host: the history goes in and comes out, next
    to a value or the exception that was raised. *)
Definition io (A : Type) : Type := t -> list event -> list event * (exn + A).

Definition ret {A} (a : A) : io A := fun _ hist => (hist, inr a).

Definition raise {A} (e : exn) : io A := fun _ hist => (hist, inl e).

Definition bind {A B} (m : io A) (k : A -> io B) : io B :=
  fun h hist =>
    match m h hist with
    | (hist', inl e) => (hist', inl e)
    | (hist', inr a) => k a h hist'
    end.

(** [with open(path, 'w', encoding='utf-8') as ofile: ofile.write(content)] *)
Definition write_file (path content : string) : io unit :=
  fun h hist =>
    let e := WriteFile path content in
    (hist ++ [e], if write_ok h hist path content then inr tt else inl (OSError e)).

(** [pc = subprocess.Popen(args, cwd=cwd); pc.wait(); pc.returncode] *)
Definition popen_wait (args : list string) (cwd : string) : io Z :=
  fun h hist =>
    let e := Popen args cwd in
    (hist ++ [e],
     match popen_returncode h hist args cwd with
     | Some rc => inr rc
     | None => inl (OSError e)
     end).

(** [subprocess.call(prog)] *)
Definition call (prog : string) : io Z :=
  fun h hist =>
    let e := Call prog in
    (hist ++ [e],
     match call_returncode h hist prog with
     | Some rc => inr rc
     | None => inl (OSError e)
     end).

(** [if c: raise e] *)
Definition raise_if (c : bool) (e : exn) : io unit :=
  if c then raise e else ret tt.

End Host.

Notation "x <- m ;; k" := (Host.bind m (fun x => k))
  (at level 100, m at next level, right associativity).
Notation "m ;; k" := (Host.bind m (fun _ => k))
  (at level 100, right associativity).

(** ** The adapter *)

Module CobolCompiler.
Import PyStr.

(** The attributes of a [CobolCompiler] instance that its methods read. *)
Record t := {
  exelist : list string;
  version : string;
  is_cross : bool
}.

Definition LINKER_PREFIX : string := "-Q Wl,".
Definition language : string := "cobol".
Definition id : string := "GnuCOBOL".

Definition get_pic_args (self : t) : list string := [].

Definition get_pie_args (self : t) : list string := [].

Definition needs_static_linker (self : t) : bool := true.

Definition get_werror_args (self : t) : list string := ["-Werror"].

Definition get_depfile_suffix (self : t) : string := "d".

Definition depfile_for_object (self : t) (objfile : string) : string :=
  (posixpath.splitext objfile).1 +:+ "." +:+ get_depfile_suffix self.


Definition get_output_args (self : t) (target : string) : list string :=
  ["-o"; target].

Definition get_always_args (self : t) : list string := [].

Definition get_warn_args (self : t) (level : string) : list string := [].

Definition get_include_args (self : t) (path : string) (is_system : bool)
    : list string :=
  ["-I" +:+ path].

Definition get_compile_only_args (self : t) : list string := ["-c"].

(** The test [i[:2] == '-I' or i[:2] == '-L'] of the loop body. *)
Definition is_path_flag (i : string) : bool :=
  String.eqb (slice_to i 2) "-I" || String.eqb (slice_to i 2) "-L".

(** The right-hand side of the assignment in the loop body. *)
Definition absolute_parameter (build_dir i : string) : string :=
  slice_to i 2 +:+ posixpath.normpath (posixpath.join build_dir (slice_from i 2)).

(** The loop body as a function of the token it visits. *)
Definition absolutize (build_dir i : string) : string :=
  if is_path_flag i then absolute_parameter build_dir i else i.

(** Case analysis that keeps the equation, for the termination proof. *)
Definition inspect {A : Type} (x : A) : { y : A | x = y } := exist _ x eq_refl.
Local Notation "x 'eqn:' p" := (exist _ x p) (only parsing, at level 20).

(** The [for idx, i in enumerate(parameter_list)] loop.  The list
    iterator reads the list as it is when position [idx] is reached and
    stops once [idx] is past its end; the body overwrites position
    [idx] of that same list. *)
Equations? enumerate_loop (build_dir : string) (idx : nat)
    (parameter_list : list string) : list string
  by wf (length parameter_list - idx)%nat lt :=
  enumerate_loop build_dir idx parameter_list
    with inspect (parameter_list !! idx) => {
    | None eqn:Hnone := parameter_list;
    | Some i eqn:Hi with inspect (is_path_flag i) => {
        | true eqn:Hflag :=
            enumerate_loop build_dir (S idx)
              (<[idx := absolute_parameter build_dir i]> parameter_list);
        | false eqn:Hflag :=
            enumerate_loop build_dir (S idx) parameter_list } }.
Proof.
  all: apply lookup_lt_Some in Hi; rewrite ?length_insert; lia.
Qed.

(** The method returns the list object it was given, after the loop has
    overwritten it; the value returned is the final content of that list. *)
Definition compute_parameters_with_absolute_paths (self : t)
    (parameter_list : list string) (build_dir : string) : list string :=
  enumerate_loop build_dir 0 parameter_list.

(** The build environment handed to the probe; the probe does not read it. *)
Inductive Environment := environment_object.

Definition newline : string := String "010" "".
Definition dquote : string := String "034" "".

(** The text written to [coboltest.cob]. *)
Definition content : string :=
  newline
  +:+ "      * COBOL fixed-form must be indented" +:+ newline
  +:+ "000100 IDENTIFICATION DIVISION." +:+ newline
  +:+ "000200 PROGRAM-ID. hello." +:+ newline
  +:+ "000300 PROCEDURE DIVISION." +:+ newline
  +:+ "000400 DISPLAY " +:+ dquote +:+ "Cobol compilation is working."
  +:+ dquote +:+ "." +:+ newline
  +:+ "000500 STOP RUN." +:+ newline
  +:+ "            ".

(** The paths and the command line that [sanity_check] builds from
    [work_dir], named for use in statements about the probe. *)
Definition probe_source_name (work_dir : string) : string :=
  posixpath.join work_dir "coboltest.cob".

Definition probe_output_name (work_dir : string) : string :=
  posixpath.join work_dir "coboltest".

Definition probe_compile_args (self : t) (work_dir : string) : list string :=
  exelist self ++ ["-x"; "-o"; probe_output_name work_dir; "coboltest.cob"].

Section Probe.
(** [Compiler.name_string], inherited from the base class. *)
Variable name_string : t -> string.

Definition cannot_compile (self : t) : Host.exn :=
  Host.EnvironmentException
    ("Cobol compiler " +:+ name_string self +:+ " cannot compile programs.").

Definition not_runnable (self : t) : Host.exn :=
  Host.EnvironmentException
    ("Executables created by Cobol compiler " +:+ name_string self
     +:+ " are not runnable.").

Definition sanity_check (self : t) (work_dir : string)
    (environment : Environment) : Host.io unit :=
  let src := "coboltest.cob" in
  let source_name := posixpath.join work_dir src in
  let output_name := posixpath.join work_dir "coboltest" in
  Host.write_file source_name content ;;
  returncode <- Host.popen_wait
                  (exelist self ++ ["-x"; "-o"; output_name; src]) work_dir ;;
  Host.raise_if (negb (returncode =? 0)) (cannot_compile self) ;;
  if is_cross self then Host.ret tt
  else
    returncode' <- Host.call output_name ;;
    Host.raise_if (negb (returncode' =? 0)) (not_runnable self).
End Probe.

End CobolCompiler.

(** ** Sample toolchains and hosts *)

Module Samples.
Import CobolCompiler.

Definition cobc : CobolCompiler.t :=
  {| exelist := ["cobc"]; version := "3.2.0"; is_cross := false |}.

Definition cross_cobc : CobolCompiler.t :=
  {| exelist := ["arm-cobc"]; version := "3.2.0"; is_cross := true |}.

(** A sample [name_string]: the command line joined with spaces. *)
Definition name_string (self : CobolCompiler.t) : string :=
  PyStr.join " " (exelist self).

(** A host on which every file can be written, the compiler exits with
    [compile_rc] and every other program with [run_rc]. *)
Definition fixed_host (compile_rc run_rc : Z) : Host.t :=
  {| Host.write_ok := fun _ _ _ => true;
     Host.popen_returncode := fun _ _ _ => Some compile_rc;
     Host.call_returncode := fun _ _ => Some run_rc |}.

End Samples.

(** ** Hosts on which the probe cannot get started *)

Module FailingHosts.

(** A host whose working directory cannot be written to. *)
Definition read_only : Host.t :=
  {| Host.write_ok := fun _ _ _ => false;
     Host.popen_returncode := fun _ _ _ => Some 0;
     Host.call_returncode := fun _ _ => Some 0 |}.

(** A host on which no program can be started. *)
Definition no_programs : Host.t :=
  {| Host.write_ok := fun _ _ _ => true;
     Host.popen_returncode := fun _ _ _ => None;
     Host.call_returncode := fun _ _ => None |}.

End FailingHosts.

(** ** Normal forms of paths

    What [normpath] produces, stated on its own: a list of components in
    which the [..] entries come first (and only in a relative path) and
    every other entry is an ordinary name, written out after the initial
    slashes. *)

Module NormalForm.

(** An ordinary path component. *)
Definition plain (c : string) : Prop :=
  c <> "" /\ c <> "." /\ c <> ".." /\ PyStr.contains "/" c = false.

Definition canon (initial_slashes : nat) (comps : list string) : Prop :=
  exists ups rest,
    comps = ups ++ rest
    /\ Forall (fun c => c = "..") ups
    /\ Forall plain rest
    /\ (initial_slashes <> 0%nat -> ups = []).

Definition render (initial_slashes : nat) (comps : list string) : string :=
  if Nat.eqb initial_slashes 0 then PyStr.join posixpath.sep comps
  else PyStr.repeat posixpath.sep initial_slashes
       +:+ PyStr.join posixpath.sep comps.

End NormalForm.

(** * Properties *)

(** ** Strings *)

Section StringFacts.
Import PyStr.

Lemma app_cons a (s t : string) : String a s +:+ t = String a (s +:+ t).
Proof. reflexivity. Qed.

Lemma app_empty_l (t : string) : "" +:+ t = t.
Proof. reflexivity. Qed.

Lemma app_empty_r (s : string) : s +:+ "" = s.
Proof. induction s as [|a s IH]; [done|]. by rewrite app_cons, IH. Qed.

Lemma app_assoc (s t u : string) : (s +:+ t) +:+ u = s +:+ t +:+ u.
Proof. induction s as [|a s IH]; [done|]. by rewrite !app_cons, IH. Qed.

Lemma take_drop n (s : string) : take n s +:+ drop n s = s.
Proof.
  revert s; induction n as [|n IH]; intros [|a s]; try done.
  simpl. by rewrite app_cons, IH.
Qed.

Lemma clamp_nonneg k len : 0 <= k -> clamp k len = (Z.to_nat k `min` len)%nat.
Proof. intros Hk. unfold clamp. destruct (Z.ltb_spec k 0); lia. Qed.

(** [("ab" + s)[:2]] and [("ab" + s)[2:]] *)
Lemma slice_to_2_cons a b (s : string) :
  slice_to (String a (String b s)) 2 = String a (String b "").
Proof. unfold slice_to. rewrite clamp_nonneg by lia. done. Qed.

Lemma slice_from_2_cons a b (s : string) :
  slice_from (String a (String b s)) 2 = s.
Proof. unfold slice_from. rewrite clamp_nonneg by lia. done. Qed.

Lemma slice_to_short (s : string) k :
  (String.length s <= Z.to_nat k)%nat -> 0 <= k -> slice_to s k = s.
Proof.
  intros Hlen Hk. unfold slice_to. rewrite clamp_nonneg by done.
  replace (Z.to_nat k `min` String.length s)%nat with (String.length s) by lia.
  clear. induction s as [|a s IH]; [done|]. simpl. by rewrite IH.
Qed.

Lemma slice_to_split (s : string) k : slice_to s k +:+ slice_from s k = s.
Proof. apply take_drop. Qed.

Lemma startswith_cons a b (s t : string) :
  startswith (String a s) (String b t) = bool_decide (b = a) && startswith s t.
Proof.
  unfold startswith. simpl.
  destruct (ascii_dec b a); case_bool_decide; done.
Qed.

Lemma startswith_empty (s : string) : startswith s "" = true.
Proof. by destruct s. Qed.

Lemma startswith_app (s t : string) : startswith (s +:+ t) s = true.
Proof.
  induction s as [|a s IH]; [apply startswith_empty|].
  rewrite app_cons, startswith_cons, IH. by rewrite bool_decide_eq_true_2.
Qed.

Lemma startswith_inv (s pre : string) :
  startswith s pre = true -> exists t, s = pre +:+ t.
Proof.
  revert s; induction pre as [|b pre IH]; intros s H.
  - by exists s.
  - destruct s as [|a s]; [done|].
    rewrite startswith_cons in H. apply andb_true_iff in H as [Hb H].
    apply bool_decide_eq_true_1 in Hb as ->.
    destruct (IH _ H) as [t ->]. by exists t.
Qed.

Lemma app_two a b (s : string) :
  String a (String b "") +:+ s = String a (String b s).
Proof. reflexivity. Qed.

Lemma eqb_two a b c d :
  String.eqb (String a (String b "")) (String c (String d ""))
  = bool_decide (c = a) && bool_decide (d = b).
Proof.
  simpl. destruct (Ascii.eqb_spec a c), (Ascii.eqb_spec b d);
    repeat case_bool_decide; simplify_eq; done.
Qed.

End StringFacts.

(** ** The argument translator *)

Section Translator.
Import CobolCompiler.

Variable self : CobolCompiler.t.

(** The prefix test of the loop is the test "begins with [-I] or [-L]". *)
Lemma is_path_flag_startswith (i : string) :
  is_path_flag i = PyStr.startswith i "-I" || PyStr.startswith i "-L".
Proof.
  unfold is_path_flag.
  destruct i as [|a [|b i]]; [done| |].
  - rewrite (slice_to_short (String a "")) by (simpl; lia).
    rewrite !startswith_cons. unfold PyStr.startswith; simpl.
    rewrite !andb_false_r.
    by destruct (Ascii.eqb a "-").
  - rewrite slice_to_2_cons, !startswith_cons, !startswith_empty, !andb_true_r.
    by rewrite !eqb_two.
Qed.

Lemma enumerate_loop_map build_dir idx (parameter_list : list string) :
  enumerate_loop build_dir idx parameter_list
  = take idx parameter_list ++ (absolutize build_dir <$> drop idx parameter_list).
Proof.
  funelim (enumerate_loop build_dir idx parameter_list).
  - pose proof (lookup_ge_None_1 _ _ Hnone) as Hge.
    rewrite take_ge, drop_ge by done. by rewrite app_nil_r.
  - rewrite H. pose proof (lookup_lt_Some _ _ _ Hi) as Hlt.
    rewrite take_insert_lt, drop_insert_lt by lia.
    rewrite (take_S_r _ _ _ Hi), (drop_S _ _ _ Hi).
    rewrite insert_app_r_alt by (rewrite length_take; lia).
    rewrite length_take, Nat.min_l, Nat.sub_diag by lia.
    rewrite fmap_cons. unfold absolutize at 2. rewrite Hflag.
    simpl. by rewrite <- (assoc_L (++)).
  - rewrite H.
    rewrite (take_S_r _ _ _ Hi), (drop_S _ _ _ Hi).
    rewrite fmap_cons. unfold absolutize at 2. rewrite Hflag.
    by rewrite <- (assoc_L (++)).
Qed.

Lemma compute_parameters_map (parameter_list : list string) build_dir :
  compute_parameters_with_absolute_paths self parameter_list build_dir
  = absolutize build_dir <$> parameter_list.
Proof.
  unfold compute_parameters_with_absolute_paths.
  by rewrite enumerate_loop_map, take_0, drop_0.
Qed.

Lemma compute_parameters_lookup (parameter_list : list string) build_dir
    (idx : nat) (i : string) :
  parameter_list !! idx = Some i ->
  compute_parameters_with_absolute_paths self parameter_list build_dir !! idx
  = Some (absolutize build_dir i).
Proof. intros Hi. by rewrite compute_parameters_map, list_lookup_fmap, Hi. Qed.

Lemma absolutize_flag build_dir flag path :
  flag = "-I" \/ flag = "-L" ->
  absolutize build_dir (flag +:+ path)
  = flag +:+ posixpath.normpath (posixpath.join build_dir path).
Proof.
  unfold absolutize, absolute_parameter. rewrite is_path_flag_startswith.
  intros [-> | ->];
    by rewrite app_two, !startswith_cons, !startswith_empty, slice_to_2_cons,
         slice_from_2_cons.
Qed.

Lemma absolutize_other build_dir i :
  PyStr.startswith i "-I" = false -> PyStr.startswith i "-L" = false ->
  absolutize build_dir i = i.
Proof.
  intros HI HL. unfold absolutize. by rewrite is_path_flag_startswith, HI, HL.
Qed.

(** A token that passes the prefix test is one of the two flags
    followed by [i[2:]]. *)
Lemma is_path_flag_inv i :
  is_path_flag i = true ->
  exists flag, (flag = "-I" \/ flag = "-L") /\ i = flag +:+ PyStr.slice_from i 2.
Proof.
  unfold is_path_flag. intros H.
  exists (PyStr.slice_to i 2). split.
  - apply orb_true_iff in H as [H|H]; apply String.eqb_eq in H; auto.
  - by rewrite slice_to_split.
Qed.

(** C1: the result has the length of the input; at every position a
    token [-I<path>] or [-L<path>] becomes the same flag followed by
    [normpath(join(build_dir, <path>))], and a token that begins with
    neither flag is the input token. *)
Theorem compute_parameters_positional (parameter_list : list string) build_dir :
  let result :=
    compute_parameters_with_absolute_paths self parameter_list build_dir in
  length result = length parameter_list
  /\ forall (idx : nat) (i : string), parameter_list !! idx = Some i ->
       (forall flag path, flag = "-I" \/ flag = "-L" -> i = flag +:+ path ->
          result !! idx
          = Some (flag +:+ posixpath.normpath (posixpath.join build_dir path)))
       /\ (PyStr.startswith i "-I" = false -> PyStr.startswith i "-L" = false ->
           result !! idx = Some i).
Proof.
  intros result. subst result. split.
  { rewrite compute_parameters_map. apply length_fmap. }
  intros idx i Hi. rewrite (compute_parameters_lookup _ _ _ _ Hi). split.
  - intros flag path Hflag ->. by rewrite absolutize_flag.
  - intros HI HL. by rewrite absolutize_other.
Qed.

(** C10: the function is defined on every list of strings, and a token
    of fewer than two characters (the empty string included) is left
    as it is. *)
Theorem short_token_unchanged (parameter_list : list string) build_dir
    (idx : nat) (i : string) :
  parameter_list !! idx = Some i ->
  (String.length i < 2)%nat ->
  compute_parameters_with_absolute_paths self parameter_list build_dir !! idx
  = Some i.
Proof.
  intros Hi Hlen. rewrite compute_parameters_map, list_lookup_fmap, Hi. simpl.
  unfold absolutize. rewrite is_path_flag_startswith.
  destruct i as [|a [|b i]]; [done| |simpl in Hlen; lia].
  rewrite !startswith_cons. unfold PyStr.startswith. simpl.
  by rewrite !andb_false_r.
Qed.

(** C7: [get_include_args] is [["-I" + path]] whatever [is_system] is. *)
Theorem get_include_args_spec (path : string) (is_system : bool) :
  get_include_args self path is_system = ["-I" +:+ path]
  /\ get_include_args self path is_system
     = get_include_args self path (negb is_system).
Proof. done. Qed.

(** C8: the PIC, PIE, warning and always-on arguments are empty. *)
Theorem empty_argument_lists (level : string) :
  get_pic_args self = [] /\ get_pie_args self = []
  /\ get_warn_args self level = [] /\ get_always_args self = [].
Proof. done. Qed.

End Translator.

Lemma compute_parameters_positional_witness :
  CobolCompiler.compute_parameters_with_absolute_paths Samples.cobc
    ["-c"; "-Iinc"; "-L../lib"; "x.cob"] "/b" !! 1%nat
  = Some "-I/b/inc".
Proof.
  destruct (compute_parameters_positional Samples.cobc
              ["-c"; "-Iinc"; "-L../lib"; "x.cob"] "/b") as [_ H].
  destruct (H 1%nat "-Iinc" eq_refl) as [H' _].
  exact (H' "-I" "inc" (or_introl eq_refl) eq_refl).
Defined.

Lemma short_token_unchanged_witness :
  CobolCompiler.compute_parameters_with_absolute_paths Samples.cobc
    ["-Iinc"; "-"; ""] "/b" !! 1%nat = Some "-".
Proof.
  apply (short_token_unchanged Samples.cobc ["-Iinc"; "-"; ""] "/b" 1 "-").
  - reflexivity.
  - simpl. lia.
Defined.

(** ** The sanity probe *)

Section SanityProbe.
Import CobolCompiler.

Variable name_string : CobolCompiler.t -> string.
Variables (self : CobolCompiler.t) (work_dir : string).
Variable environment : Environment.
Variables (h : Host.t) (hist : list Host.event).

Local Abbreviation source_name := (probe_source_name work_dir).
Local Abbreviation output_name := (probe_output_name work_dir).
Local Abbreviation compile_args := (probe_compile_args self work_dir).
Local Abbreviation write_event := (Host.WriteFile source_name content).
Local Abbreviation compile_event := (Host.Popen compile_args work_dir).

(** The probe up to the end of the compile step. *)
Lemma sanity_check_after_compile (returncode : Z) :
  Host.write_ok h hist source_name content = true ->
  Host.popen_returncode h (hist ++ [write_event]) compile_args work_dir
  = Some returncode ->
  sanity_check name_string self work_dir environment h hist
  = (Host.raise_if (negb (returncode =? 0)) (cannot_compile name_string self) ;;
     if is_cross self then Host.ret tt
     else
       returncode' <- Host.call output_name ;;
       Host.raise_if (negb (returncode' =? 0)) (not_runnable name_string self))
      h (hist ++ [write_event; compile_event]).
Proof.
  intros Hw Hc. unfold sanity_check.
  unfold Host.bind at 1. unfold Host.write_file.
  fold (probe_source_name work_dir). rewrite Hw.
  unfold Host.bind at 1. unfold Host.popen_wait.
  fold (probe_output_name work_dir). fold (probe_compile_args self work_dir).
  rewrite Hc. by rewrite <- (assoc_L (++)).
Qed.

(** C2: when the compile step exits with a non-zero status the probe
    raises [EnvironmentException] with the message that names the
    toolchain through [name_string], and the history gains the write
    and the compile step only: the produced binary is not run. *)
Theorem sanity_check_compile_failure (returncode : Z) :
  Host.write_ok h hist source_name content = true ->
  Host.popen_returncode h (hist ++ [write_event]) compile_args work_dir
  = Some returncode ->
  returncode <> 0 ->
  exists new,
    sanity_check name_string self work_dir environment h hist
    = (hist ++ new,
       inl (Host.EnvironmentException
              ("Cobol compiler " +:+ name_string self
               +:+ " cannot compile programs.")))
    /\ new = [write_event; compile_event]
    /\ forall prog, Host.Call prog ∉ new.
Proof.
  intros Hw Hc Hrc. exists [write_event; compile_event].
  rewrite (sanity_check_after_compile _ Hw Hc).
  apply Z.eqb_neq in Hrc. unfold Host.bind. rewrite Hrc. simpl.
  split; [done|]. split; [done|].
  intros prog Hin. rewrite !elem_of_cons in Hin.
  destruct Hin as [?|[?|Hin]]; [done..|]. by apply elem_of_nil in Hin.
Qed.

(** C5: when the compile step exits 0 and the toolchain is a cross
    toolchain the probe returns normally, and the history gains the
    write and the compile step only: the produced binary is not run. *)
Theorem sanity_check_cross_success :
  Host.write_ok h hist source_name content = true ->
  Host.popen_returncode h (hist ++ [write_event]) compile_args work_dir
  = Some 0 ->
  is_cross self = true ->
  exists new,
    sanity_check name_string self work_dir environment h hist
    = (hist ++ new, inr tt)
    /\ new = [write_event; compile_event]
    /\ forall prog, Host.Call prog ∉ new.
Proof.
  intros Hw Hc Hcross. exists [write_event; compile_event].
  rewrite (sanity_check_after_compile _ Hw Hc).
  unfold Host.bind. simpl. rewrite Hcross.
  split; [done|]. split; [done|].
  intros prog Hin. rewrite !elem_of_cons in Hin.
  destruct Hin as [?|[?|Hin]]; [done..|]. by apply elem_of_nil in Hin.
Qed.

(** C6: when the compile step exits 0, the toolchain is not a cross
    toolchain and the produced binary exits with a non-zero status,
    the probe runs the binary and raises [EnvironmentException] with
    the not-runnable message that names the toolchain. *)
Theorem sanity_check_run_failure (returncode' : Z) :
  Host.write_ok h hist source_name content = true ->
  Host.popen_returncode h (hist ++ [write_event]) compile_args work_dir
  = Some 0 ->
  is_cross self = false ->
  Host.call_returncode h (hist ++ [write_event; compile_event]) output_name
  = Some returncode' ->
  returncode' <> 0 ->
  sanity_check name_string self work_dir environment h hist
  = (hist ++ [write_event; compile_event; Host.Call output_name],
     inl (Host.EnvironmentException
            ("Executables created by Cobol compiler " +:+ name_string self
             +:+ " are not runnable."))).
Proof.
  intros Hw Hc Hcross Hrun Hrc.
  rewrite (sanity_check_after_compile _ Hw Hc).
  apply Z.eqb_neq in Hrc.
  unfold Host.bind, Host.call. simpl. rewrite Hcross, Hrun, Hrc. simpl.
  by rewrite <- (assoc_L (++)).
Qed.

End SanityProbe.

Lemma sanity_check_compile_failure_witness :
  exists new,
    CobolCompiler.sanity_check Samples.name_string Samples.cobc "/w"
      CobolCompiler.environment_object (Samples.fixed_host 1 0) []
    = ([] ++ new,
       inl (Host.EnvironmentException "Cobol compiler cobc cannot compile programs."))
    /\ new = [Host.WriteFile "/w/coboltest.cob" CobolCompiler.content;
              Host.Popen ["cobc"; "-x"; "-o"; "/w/coboltest"; "coboltest.cob"] "/w"]
    /\ forall prog, Host.Call prog ∉ new.
Proof.
  apply (sanity_check_compile_failure Samples.name_string Samples.cobc "/w"
           CobolCompiler.environment_object (Samples.fixed_host 1 0) [] 1).
  - reflexivity.
  - reflexivity.
  - lia.
Defined.

Lemma sanity_check_cross_success_witness :
  exists new,
    CobolCompiler.sanity_check Samples.name_string Samples.cross_cobc "/w"
      CobolCompiler.environment_object (Samples.fixed_host 0 2) []
    = ([] ++ new, inr tt)
    /\ new = [Host.WriteFile "/w/coboltest.cob" CobolCompiler.content;
              Host.Popen ["arm-cobc"; "-x"; "-o"; "/w/coboltest"; "coboltest.cob"]
                "/w"]
    /\ forall prog, Host.Call prog ∉ new.
Proof.
  apply (sanity_check_cross_success Samples.name_string Samples.cross_cobc "/w"
           CobolCompiler.environment_object (Samples.fixed_host 0 2) []).
  - reflexivity.
  - reflexivity.
  - reflexivity.
Defined.

Lemma sanity_check_run_failure_witness :
  CobolCompiler.sanity_check Samples.name_string Samples.cobc "/w"
    CobolCompiler.environment_object (Samples.fixed_host 0 2) []
  = ([Host.WriteFile "/w/coboltest.cob" CobolCompiler.content;
      Host.Popen ["cobc"; "-x"; "-o"; "/w/coboltest"; "coboltest.cob"] "/w";
      Host.Call "/w/coboltest"],
     inl (Host.EnvironmentException
            "Executables created by Cobol compiler cobc are not runnable.")).
Proof.
  apply (sanity_check_run_failure Samples.name_string Samples.cobc "/w"
           CobolCompiler.environment_object (Samples.fixed_host 0 2) [] 2).
  - reflexivity.
  - reflexivity.
  - reflexivity.
  - reflexivity.
  - lia.
Defined.

(** ** Dependency file names *)

Section Splitext.
Import PyStr.

Lemma rfind_bounds c (s : string) : -1 <= rfind c s < Z.of_nat (String.length s).
Proof.
  induction s as [|a s IH]; simpl; [lia|].
  destruct (Z.leb_spec 0 (rfind c s)); [lia|]. destruct (Ascii.eqb a c); lia.
Qed.

Lemma rfind_absent c (s : string) : rfind c s < 0 -> contains c s = false.
Proof.
  induction s as [|a s IH]; simpl; [done|].
  destruct (Z.leb_spec 0 (rfind c s)); [lia|].
  destruct (Ascii.eqb a c); [lia|]. intros _. apply IH. lia.
Qed.

(** At the index that [rfind] returns the character occurs for the last time. *)
Lemma rfind_drop c (s : string) :
  0 <= rfind c s ->
  exists r, drop (Z.to_nat (rfind c s)) s = String c r /\ contains c r = false.
Proof.
  induction s as [|a s IH]; simpl; [lia|].
  destruct (Z.leb_spec 0 (rfind c s)) as [Hk|Hk].
  - intros _. destruct (IH Hk) as (r & Hr & Hc). exists r. split; [|done].
    replace (Z.to_nat (rfind c s + 1)) with (S (Z.to_nat (rfind c s))) by lia.
    done.
  - destruct (Ascii.eqb_spec a c) as [->|]; [|lia].
    intros _. exists s. split; [done|]. apply rfind_absent. lia.
Qed.

(** Past the index that [rfind] returns the character does not occur. *)
Lemma rfind_lt_drop c (s : string) (n : nat) :
  rfind c s < Z.of_nat n -> contains c (drop n s) = false.
Proof.
  revert n. induction s as [|a s IH]; intros n; [by destruct n|].
  destruct n as [|n].
  - intros H. by apply rfind_absent.
  - simpl. destruct (Z.leb_spec 0 (rfind c s)) as [Hk|Hk].
    + intros Hn. apply IH. lia.
    + intros _. apply IH. lia.
Qed.

Lemma slice_to_0 (s : string) : slice_to s 0 = "".
Proof. unfold slice_to. rewrite clamp_nonneg by lia. by destruct s. Qed.

Lemma splitext_app (p : string) :
  (posixpath.splitext p).1 +:+ (posixpath.splitext p).2 = p.
Proof.
  unfold posixpath.splitext.
  destruct (_ && _); simpl.
  - apply slice_to_split.
  - rewrite slice_to_0. apply app_empty_r.
Qed.

(** The extension is empty, or one dot followed by characters that are
    neither a dot nor a slash. *)
Lemma splitext_ext (p : string) :
  contains "/" (posixpath.splitext p).2 = false
  /\ ((posixpath.splitext p).2 = ""
      \/ exists e, (posixpath.splitext p).2 = "." +:+ e /\ contains "." e = false).
Proof.
  unfold posixpath.splitext.
  destruct (_ && _) eqn:Hcond; simpl.
  2:{ rewrite slice_to_0. split; [done|by left]. }
  apply andb_true_iff in Hcond as [Hlt _]. apply Z.ltb_lt in Hlt.
  pose proof (rfind_bounds "/" p) as Hsep.
  pose proof (rfind_bounds "." p) as Hdot.
  unfold slice_from. rewrite clamp_nonneg, Nat.min_l by lia.
  split.
  - apply rfind_lt_drop. lia.
  - right. destruct (rfind_drop "." p) as (r & Hr & Hc); [lia|].
    exists r. by rewrite Hr.
Qed.

Lemma length_app (s t : string) :
  String.length (s +:+ t) = (String.length s + String.length t)%nat.
Proof. induction s as [|a s IH]; [done|]. rewrite app_cons. simpl. by rewrite IH. Qed.

Lemma take_app_length (s t : string) : take (String.length s) (s +:+ t) = s.
Proof. induction s as [|a s IH]; [by destruct t|]. rewrite app_cons. simpl. by rewrite IH. Qed.

Lemma drop_app_length (s t : string) : drop (String.length s) (s +:+ t) = t.
Proof. induction s as [|a s IH]; [done|]. by rewrite app_cons. Qed.

Lemma slice_to_app (s t : string) : slice_to (s +:+ t) (Z.of_nat (String.length s)) = s.
Proof.
  unfold slice_to. rewrite clamp_nonneg, length_app, Nat.min_l by lia.
  rewrite Nat2Z.id. apply take_app_length.
Qed.

(** [(x + a + y)[len(x):len(x)+1]] is the character [a]. *)
Lemma slice_at (x y : string) a :
  slice (x +:+ String a y) (Z.of_nat (String.length x))
    (Z.of_nat (String.length x) + 1)
  = String a "".
Proof.
  unfold slice. rewrite !clamp_nonneg, length_app by lia. simpl String.length.
  rewrite !Nat.min_l by lia. rewrite Nat2Z.id, drop_app_length.
  replace (Z.to_nat (Z.of_nat (String.length x) + 1) - String.length x)%nat
    with 1%nat by lia.
  done.
Qed.

Lemma contains_app c (s t : string) :
  contains c (s +:+ t) = contains c s || contains c t.
Proof.
  induction s as [|a s IH]; [done|]. rewrite app_cons. simpl.
  by rewrite IH, orb_assoc.
Qed.

Lemma rfind_absent_eq c (s : string) : contains c s = false -> rfind c s = -1.
Proof.
  induction s as [|a s IH]; simpl; [done|].
  intros [Ha Hs]%orb_false_iff. by rewrite (IH Hs), Ha.
Qed.

Lemma rfind_app_absent c (s t : string) :
  contains c t = false -> rfind c (s +:+ t) = rfind c s.
Proof.
  intros Ht. induction s as [|a s IH].
  - by rewrite app_empty_l, rfind_absent_eq.
  - rewrite app_cons. simpl. by rewrite IH.
Qed.

Lemma rfind_app_last c (s e : string) :
  contains c e = false -> rfind c (s +:+ String c e) = Z.of_nat (String.length s).
Proof.
  intros He. induction s as [|a s IH].
  - rewrite app_empty_l. simpl. by rewrite (rfind_absent_eq _ _ He), Ascii.eqb_refl.
  - rewrite app_cons. simpl rfind. rewrite IH.
    destruct (Z.leb_spec 0 (Z.of_nat (String.length s))); simpl String.length; lia.
Qed.

Lemma all_are_false c (s : string) :
  all_are c s = false -> exists u a v, s = u +:+ String a v /\ a <> c.
Proof.
  induction s as [|a s IH]; simpl; [done|].
  destruct (Ascii.eqb_spec a c) as [->|Hac]; simpl.
  - intros (u & a & v & -> & Ha)%IH. by exists (String c u), a, v.
  - intros _. by exists "", a, s.
Qed.

Lemma skip_leading_dots_unfold p filenameIndex dotIndex :
  posixpath.skip_leading_dots p filenameIndex dotIndex
  = if Z_lt_dec filenameIndex dotIndex then
      if negb (String.eqb (slice p filenameIndex (filenameIndex + 1))
                 posixpath.extsep)
      then true
      else posixpath.skip_leading_dots p (filenameIndex + 1) dotIndex
    else false.
Proof.
  rewrite posixpath.skip_leading_dots_equation_1 at 1.
  by destruct (Z_lt_dec filenameIndex dotIndex).
Qed.

(** The scan stops with [true] at the first character that is not a dot. *)
Lemma skip_leading_dots_true (n : nat) p filenameIndex dotIndex :
  filenameIndex + Z.of_nat n < dotIndex ->
  slice p (filenameIndex + Z.of_nat n) (filenameIndex + Z.of_nat n + 1) <> "." ->
  posixpath.skip_leading_dots p filenameIndex dotIndex = true.
Proof.
  revert filenameIndex. induction n as [|n IH]; intros f Hlt Hne;
    rewrite skip_leading_dots_unfold;
    (destruct (Z_lt_dec f dotIndex); [|lia]).
  - rewrite Z.add_0_r in Hne. apply String.eqb_neq in Hne.
    unfold posixpath.extsep. by rewrite Hne.
  - destruct (negb _); [done|]. apply IH; [lia|].
    by replace (f + 1 + Z.of_nat n) with (f + Z.of_nat (S n)) by lia.
Qed.

(** A name with an extension: [stem] is not made of dots only, and
    neither [stem] nor [e] contains a slash, nor [e] a dot. *)
Lemma splitext_stem_ext (pre stem e : string) :
  all_are "." stem = false ->
  contains "/" stem = false -> contains "/" e = false -> contains "." e = false ->
  posixpath.splitext (pre +:+ stem +:+ "." +:+ e) = (pre +:+ stem, "." +:+ e).
Proof.
  intros Hall Hstem Hse Hde.
  change ("." +:+ e) with (String "." e).
  unfold posixpath.splitext.
  assert (rfind "/" (pre +:+ stem +:+ String "." e) = rfind "/" pre) as ->.
  { apply rfind_app_absent. rewrite contains_app, Hstem. simpl. by rewrite Hse. }
  rewrite <- (app_assoc pre stem), rfind_app_last by done.
  pose proof (rfind_bounds "/" pre) as Hsep.
  assert (posixpath.skip_leading_dots ((pre +:+ stem) +:+ String "." e)
            (rfind "/" pre + 1) (Z.of_nat (String.length (pre +:+ stem)))
          = true) as ->.
  { apply all_are_false in Hall as (u & a & v & -> & Ha).
    apply (skip_leading_dots_true
             (Z.to_nat (Z.of_nat (String.length (pre +:+ u))
                        - (rfind "/" pre + 1)))).
    - rewrite !length_app. simpl String.length. lia.
    - replace (rfind "/" pre + 1 + Z.of_nat (Z.to_nat _))
        with (Z.of_nat (String.length (pre +:+ u))) by (rewrite length_app; lia).
      rewrite <- (app_assoc pre u), (app_assoc (pre +:+ u)), app_cons, slice_at.
      intros [=]. by subst a. }
  destruct (Z.ltb_spec (rfind "/" pre) (Z.of_nat (String.length (pre +:+ stem))));
    [|rewrite length_app in *; lia].
  simpl andb. cbv iota.
  f_equal; [apply slice_to_app|].
  unfold slice_from. rewrite clamp_nonneg by lia.
  rewrite Nat2Z.id, Nat.min_l by (rewrite (length_app (_ +:+ _)); lia).
  apply drop_app_length.
Qed.

Variable self : CobolCompiler.t.


End Splitext.


(** ** Path normalisation *)

Section Split.
Import PyStr.

Lemma split_nonempty c (s : string) : split c s <> [].
Proof.
  induction s as [|a s IH]; simpl; [done|].
  destruct (Ascii.eqb a c); [done|]. by destruct (split c s).
Qed.

Lemma split_no_sep c (s : string) :
  Forall (fun x => contains c x = false) (split c s).
Proof.
  induction s as [|a s IH]; simpl; [by constructor|].
  destruct (Ascii.eqb a c) eqn:Hac; [by constructor|].
  destruct (split c s) as [|x xs]; [by constructor; [simpl; rewrite Hac|]|].
  inversion IH; subst. constructor; [|done]. simpl. by rewrite Hac.
Qed.

Lemma split_id c (x : string) : contains c x = false -> split c x = [x].
Proof.
  induction x as [|a x IH]; simpl; [done|].
  intros [Hac Hx]%orb_false_iff. by rewrite Hac, IH.
Qed.

Lemma split_app_sep c (s t : string) :
  split c (s +:+ String c t) = split c s ++ split c t.
Proof.
  induction s as [|a s IH].
  - rewrite app_empty_l. simpl. by rewrite Ascii.eqb_refl.
  - rewrite app_cons. simpl. destruct (Ascii.eqb a c); [by rewrite IH|].
    rewrite IH. pose proof (split_nonempty c s).
    by destruct (split c s).
Qed.

Lemma split_join c (comps : list string) :
  comps <> [] -> Forall (fun x => contains c x = false) comps ->
  split c (join (String c "") comps) = comps.
Proof.
  induction comps as [|x [|y comps] IH]; [done| |].
  - intros _ Hx. inversion Hx; subst. by apply split_id.
  - intros _ Hx. inversion Hx as [|?? Hx1 Hx2]; subst.
    change (join (String c "") (x :: y :: comps))
      with (x +:+ String c "" +:+ join (String c "") (y :: comps)).
    rewrite app_cons, app_empty_l, split_app_sep, (split_id _ _ Hx1), IH by done.
    done.
Qed.

(** [endswith] looks at the last character only. *)
Lemma endswith_cons a c (s : string) :
  endswith (String a s) (String c "")
  = match s with "" => Ascii.eqb a c | _ => endswith s (String c "") end.
Proof.
  unfold endswith. destruct s as [|b s].
  - simpl. by destruct (Ascii.eqb a c).
  - simpl. by rewrite Nat.sub_0_r.
Qed.

End Split.

Section NormpathSteps.
Import posixpath NormalForm.

Lemma step_skip k acc comp :
  comp = "" \/ comp = "." -> normpath_step k acc comp = acc.
Proof. by intros [-> | ->]. Qed.

Lemma step_plain k acc comp :
  plain comp -> normpath_step k acc comp = acc ++ [comp].
Proof.
  intros (H1 & H2 & H3 & _). unfold normpath_step.
  apply String.eqb_neq in H1, H2, H3. by rewrite H1, H2, H3.
Qed.

(** The three ways in which the loop treats a [..] component. *)
Lemma step_up k acc :
  normpath_step k acc ".."
  = match last acc with
    | None => if Nat.eqb k 0 then [".."] else []
    | Some x => if String.eqb x ".." then acc ++ [".."] else removelast acc
    end.
Proof.
  unfold normpath_step. simpl.
  destruct (last acc) as [x|] eqn:Hlast.
  - assert (acc <> []) as Hne by (intros ->; done).
    rewrite (bool_decide_eq_false_2 _ Hne), andb_false_r. simpl.
    destruct (String.eqb_spec x "..") as [->|Hx].
    + by rewrite bool_decide_eq_true_2.
    + rewrite bool_decide_eq_false_2; [done|congruence].
  - apply last_None in Hlast as ->. simpl.
    by destruct (Nat.eqb k 0).
Qed.

Lemma canon_nil k : canon k [].
Proof. exists [], []. repeat split; by try constructor. Qed.

Lemma step_canon k acc comp :
  canon k acc -> PyStr.contains "/" comp = false ->
  canon k (normpath_step k acc comp).
Proof.
  intros (ups & rest & -> & Hups & Hrest & Hk) Hslash.
  destruct (decide (comp = "" \/ comp = ".")) as [Hskip|Hskip].
  { rewrite step_skip by done. by exists ups, rest. }
  destruct (decide (comp = "..")) as [->|Hup].
  2:{ rewrite step_plain by (unfold plain; naive_solver).
      exists ups, (rest ++ [comp]). rewrite (assoc_L (++)).
      repeat split; [done| |done].
      apply Forall_app. split; [done|].
      constructor; [|done]. unfold plain; naive_solver. }
  rewrite step_up.
  destruct rest as [|x rest _] using rev_ind.
  - rewrite app_nil_r. destruct (last ups) as [x|] eqn:Hlast.
    + assert (x = "..") as ->.
      { apply last_Some_elem_of in Hlast.
        by apply (proj1 (Forall_forall _ _) Hups) in Hlast. }
      simpl. exists (ups ++ [".."]), []. rewrite app_nil_r.
      repeat split; [|done|].
      * apply Forall_app. split; [done|]. by constructor.
      * intros Hk'. rewrite (Hk Hk') in Hlast. done.
    + apply last_None in Hlast as ->.
      destruct (Nat.eqb_spec k 0) as [->|Hk0]; [|apply canon_nil].
      exists [".."], []. repeat split; [by constructor; [|constructor]|done|done].
  - rewrite (assoc_L (++)), last_snoc.
    apply Forall_app in Hrest as [Hrest Hx].
    inversion Hx as [|?? (_ & _ & Hx3 & _) _]; subst.
    apply String.eqb_neq in Hx3. rewrite Hx3, removelast_last.
    by exists ups, rest.
Qed.

Lemma foldl_canon k comps acc :
  canon k acc -> Forall (fun c => PyStr.contains "/" c = false) comps ->
  canon k (foldl (normpath_step k) acc comps).
Proof.
  revert acc. induction comps as [|c comps IH]; intros acc Hacc Hcomps; [done|].
  inversion Hcomps; subst. simpl. apply IH; [|done]. by apply step_canon.
Qed.

(** Over a list that is already in normal form the loop changes nothing. *)
Lemma foldl_canon_id k comps acc :
  canon k (acc ++ comps) -> foldl (normpath_step k) acc comps = acc ++ comps.
Proof.
  revert acc. induction comps as [|c comps IH]; intros acc Hcanon.
  { by rewrite app_nil_r. }
  simpl. replace (acc ++ c :: comps) with ((acc ++ [c]) ++ comps) in *
    by (by rewrite <- (assoc_L (++))).
  assert (normpath_step k acc c = acc ++ [c]) as ->; [|by apply IH].
  destruct Hcanon as (ups & rest & Heq & Hups & Hrest & Hk).
  rewrite <- (assoc_L (++)) in Heq. simpl in Heq.
  apply app_eq_inv in Heq as [(m & -> & ->)|(m & -> & Heq)].
  - apply step_plain. apply Forall_app in Hrest as [_ Hrest].
    by inversion Hrest.
  - destruct m as [|c' m]; simpl in Heq.
    + subst rest. apply step_plain. by inversion Hrest.
    + injection Heq as <- ->.
      apply Forall_app in Hups as [Hacc Hc]. inversion Hc; subst.
      rewrite step_up.
      assert (k = 0%nat) as ->.
      { destruct (decide (k = 0%nat)) as [|Hk0]; [done|].
        specialize (Hk Hk0). by destruct acc. }
      destruct (last acc) as [x|] eqn:Hlast.
      * apply last_Some_elem_of in Hlast.
        apply (proj1 (Forall_forall _ _) Hacc) in Hlast as ->. done.
      * by apply last_None in Hlast as ->.
Qed.

End NormpathSteps.

Section Normpath.
Import posixpath NormalForm.

Lemma initial_slashes_le p : (initial_slashes_of p <= 2)%nat.
Proof.
  unfold initial_slashes_of.
  destruct (PyStr.startswith p sep); [|lia]. destruct (_ && _); lia.
Qed.

Lemma normpath_unfold p :
  p <> "" ->
  normpath p
  = let k := initial_slashes_of p in
    let r := render k (foldl (normpath_step k) [] (PyStr.split "/" p)) in
    if String.eqb r "" then "." else r.
Proof.
  intros Hp%String.eqb_neq. unfold normpath, render. rewrite Hp. simpl.
  by destruct (Nat.eqb (initial_slashes_of p) 0).
Qed.

(** Every result of [normpath] is the rendering of a normal form. *)
Lemma normpath_shape p :
  exists k comps,
    canon k comps /\ (k <= 2)%nat
    /\ normpath p = (if String.eqb (render k comps) "" then "." else render k comps)
    /\ (PyStr.startswith p sep = true -> k <> 0%nat).
Proof.
  destruct (decide (p = "")) as [->|Hp].
  { exists 0%nat, []. split; [apply canon_nil|]. split; [lia|].
    split; [done|]. intros H. discriminate H. }
  exists (initial_slashes_of p),
    (foldl (normpath_step (initial_slashes_of p)) [] (PyStr.split "/" p)).
  split; [apply foldl_canon; [apply canon_nil|apply split_no_sep]|].
  split; [apply initial_slashes_le|]. split; [by apply normpath_unfold|].
  intros Habs. unfold initial_slashes_of. rewrite Habs. by destruct (_ && _).
Qed.

Lemma normpath_nonempty p : normpath p <> "".
Proof.
  destruct (normpath_shape p) as (k & comps & _ & _ & -> & _).
  by destruct (String.eqb_spec (render k comps) "").
Qed.

(** A component of a normal form starts with a character other than [/]. *)
Lemma canon_head k c comps :
  canon k (c :: comps) ->
  exists a c', c = String a c' /\ a <> "/"%char /\ PyStr.contains "/" c = false.
Proof.
  intros (ups & rest & Heq & Hups & Hrest & _).
  assert (c = ".." \/ plain c) as [->|(Hne & _ & _ & Hslash)].
  { destruct ups as [|u ups]; simpl in Heq.
    - subst rest. right. by inversion Hrest.
    - injection Heq as <- _. left. by inversion Hups. }
  - by exists "."%char, ".".
  - destruct c as [|a c']; [done|]. exists a, c'. split; [done|]. split; [|done].
    simpl in Hslash. apply orb_false_iff in Hslash as [Ha _].
    by apply Ascii.eqb_neq in Ha.
Qed.

Lemma canon_tail k c comps : canon k (c :: comps) -> canon 0 comps.
Proof.
  intros (ups & rest & Heq & Hups & Hrest & _).
  destruct ups as [|u ups]; simpl in Heq.
  - subst rest. inversion Hrest; subst. exists [], comps. by repeat split.
  - injection Heq as _ ->. inversion Hups; subst. by exists ups, rest.
Qed.

Lemma canon_no_sep k comps :
  canon k comps -> Forall (fun c => PyStr.contains "/" c = false) comps.
Proof.
  revert k. induction comps as [|c comps IH]; intros k Hc; [by constructor|].
  constructor.
  - by destruct (canon_head _ _ _ Hc) as (? & ? & _ & _ & ?).
  - eapply IH, canon_tail, Hc.
Qed.

Lemma join_no_leading_sep k comps :
  canon k comps -> PyStr.startswith (PyStr.join sep comps) sep = false.
Proof.
  destruct comps as [|c comps]; [done|]. intros Hc.
  destruct (canon_head _ _ _ Hc) as (a & c' & -> & Ha & _).
  assert (exists u, PyStr.join sep (String a c' :: comps) = String a u) as [u ->].
  { destruct comps; [by eexists|]. by eexists. }
  unfold sep. rewrite startswith_cons. by rewrite bool_decide_eq_false_2.
Qed.

Lemma split_join_canon k comps :
  canon k comps ->
  foldl (normpath_step k) [] (PyStr.split "/" (PyStr.join sep comps)) = comps.
Proof.
  intros Hc. destruct (decide (comps = [])) as [->|Hne]; [done|].
  unfold sep. rewrite split_join by eauto using canon_no_sep.
  by apply (foldl_canon_id k comps []).
Qed.

Lemma initial_slashes_0 j :
  PyStr.startswith j sep = false -> initial_slashes_of j = 0%nat.
Proof. intros Hj. unfold initial_slashes_of. by rewrite Hj. Qed.

Lemma initial_slashes_1 j :
  PyStr.startswith j sep = false -> initial_slashes_of (String "/" j) = 1%nat.
Proof.
  intros Hj. unfold initial_slashes_of.
  change (PyStr.repeat sep 2) with "//". change (PyStr.repeat sep 3) with "///".
  unfold sep in *. rewrite !startswith_cons, !startswith_empty, Hj. done.
Qed.

Lemma initial_slashes_2 j :
  PyStr.startswith j sep = false ->
  initial_slashes_of (String "/" (String "/" j)) = 2%nat.
Proof.
  intros Hj. unfold initial_slashes_of.
  change (PyStr.repeat sep 2) with "//". change (PyStr.repeat sep 3) with "///".
  unfold sep in *. rewrite !startswith_cons, !startswith_empty, Hj.
  by rewrite !(bool_decide_eq_true_2 _ eq_refl).
Qed.

(** [normpath] leaves the rendering of a normal form as it is. *)
Lemma normpath_render k comps :
  canon k comps -> (k <= 2)%nat -> render k comps <> "" ->
  normpath (render k comps) = render k comps.
Proof.
  intros Hc Hk Hne. rewrite normpath_unfold by done.
  pose proof (join_no_leading_sep _ _ Hc) as Hj.
  pose proof (split_join_canon _ _ Hc) as Hs.
  assert (initial_slashes_of (render k comps) = k
          /\ foldl (normpath_step k) [] (PyStr.split "/" (render k comps)) = comps)
    as [Hi Hf].
  { destruct k as [|[|[|k]]]; [| | |lia].
    - change (render 0 comps) with (PyStr.join sep comps).
      by rewrite initial_slashes_0.
    - change (render 1 comps) with (String "/" (PyStr.join sep comps)).
      by rewrite initial_slashes_1.
    - change (render 2 comps)
        with (String "/" (String "/" (PyStr.join sep comps))).
      by rewrite initial_slashes_2. }
  cbv zeta. rewrite Hi, Hf. apply String.eqb_neq in Hne. by rewrite Hne.
Qed.

Lemma normpath_idempotent p : normpath (normpath p) = normpath p.
Proof.
  destruct (normpath_shape p) as (k & comps & Hc & Hk & -> & _).
  destruct (String.eqb_spec (render k comps) ""); [done|].
  by apply normpath_render.
Qed.

Lemma normpath_absolute p :
  PyStr.startswith p sep = true -> PyStr.startswith (normpath p) sep = true.
Proof.
  intros Habs. destruct (normpath_shape p) as (k & comps & _ & _ & -> & Hk).
  specialize (Hk Habs). unfold render.
  destruct k as [|k]; [done|]. simpl Nat.eqb. cbv iota.
  change (PyStr.repeat sep (S k))
    with (String "/" ("" +:+ PyStr.repeat sep k)).
  rewrite app_cons. simpl String.eqb. cbv iota.
  unfold sep. by rewrite startswith_cons, startswith_empty.
Qed.

End Normpath.

(** ** Flags without a path, and repeated normalisation *)

Section BareFlag.
Import posixpath.

Lemma startswith_trailing_sep p n :
  p <> "" -> PyStr.endswith p sep = false ->
  PyStr.startswith (p +:+ sep) (PyStr.repeat sep n)
  = PyStr.startswith p (PyStr.repeat sep n).
Proof.
  revert n. induction p as [|a p IH]; intros n Hne Hend; [done|].
  destruct n as [|n]; [by rewrite !startswith_empty|].
  change (PyStr.repeat sep (S n)) with (String "/" ("" +:+ PyStr.repeat sep n)).
  rewrite app_empty_l, app_cons, !startswith_cons.
  unfold sep in Hend. rewrite endswith_cons in Hend.
  destruct p as [|b p].
  - apply Ascii.eqb_neq in Hend. rewrite bool_decide_eq_false_2; [done|congruence].
  - by rewrite IH.
Qed.

Lemma initial_slashes_trailing_sep p :
  p <> "" -> PyStr.endswith p sep = false ->
  initial_slashes_of (p +:+ sep) = initial_slashes_of p.
Proof.
  intros Hne Hend. unfold initial_slashes_of.
  pose proof (fun n => startswith_trailing_sep p n Hne Hend) as H.
  rewrite (H 2%nat), (H 3%nat). specialize (H 1%nat).
  change (PyStr.repeat sep 1) with sep in H. by rewrite H.
Qed.

(** A trailing slash adds one empty component, which the loop skips. *)
Lemma normpath_trailing_sep p :
  p <> "" -> PyStr.endswith p sep = false -> normpath (p +:+ sep) = normpath p.
Proof.
  intros Hne Hend.
  assert (p +:+ sep <> "") as Hne' by (by destruct p).
  rewrite !normpath_unfold by done. cbv zeta.
  rewrite initial_slashes_trailing_sep by done.
  assert (forall k, foldl (normpath_step k) [] (PyStr.split "/" (p +:+ sep))
                    = foldl (normpath_step k) [] (PyStr.split "/" p)) as ->; [|done].
  intros k. unfold sep. by rewrite split_app_sep, foldl_app.
Qed.

Lemma normpath_join_empty build_dir :
  normpath (join build_dir "") = normpath build_dir.
Proof.
  unfold join. change (PyStr.startswith "" sep) with false. cbv iota.
  destruct (String.eqb_spec build_dir "") as [->|Hne]; [done|]. simpl orb.
  destruct (PyStr.endswith build_dir sep) eqn:Hend.
  - by rewrite app_empty_r.
  - rewrite app_empty_r. by apply normpath_trailing_sep.
Qed.

(** C9: a token that is exactly [-I] or [-L] does not pass through: it
    becomes the flag followed by the normalised build directory, which
    is never empty. *)
Theorem bare_flag_gets_build_dir (self : CobolCompiler.t)
    (parameter_list : list string) (build_dir : string) (idx : nat)
    (flag : string) :
  flag = "-I" \/ flag = "-L" ->
  parameter_list !! idx = Some flag ->
  CobolCompiler.compute_parameters_with_absolute_paths self parameter_list
    build_dir !! idx
  = Some (flag +:+ normpath build_dir)
  /\ flag +:+ normpath build_dir <> flag.
Proof.
  intros Hflag Hidx.
  rewrite (compute_parameters_lookup _ _ _ _ _ Hidx).
  rewrite <- (app_empty_r flag) at 1.
  rewrite absolutize_flag, normpath_join_empty by done. split; [done|].
  pose proof (normpath_nonempty build_dir) as Hne.
  intros Heq. apply Hne.
  rewrite <- (app_empty_r flag) in Heq at 2.
  by apply (inj (String.append flag)) in Heq.
Qed.

End BareFlag.

Lemma bare_flag_gets_build_dir_witness :
  CobolCompiler.compute_parameters_with_absolute_paths Samples.cobc
    ["-c"; "-L"] "/b/../build/" !! 1%nat
  = Some ("-L" +:+ posixpath.normpath "/b/../build/")
  /\ "-L" +:+ posixpath.normpath "/b/../build/" <> "-L".
Proof.
  apply (bare_flag_gets_build_dir Samples.cobc ["-c"; "-L"] "/b/../build/" 1 "-L").
  - right. reflexivity.
  - reflexivity.
Defined.

Section Idempotence.
Import posixpath.

Lemma join_absolute_r a b : PyStr.startswith b sep = true -> join a b = b.
Proof. intros Hb. unfold join. by rewrite Hb. Qed.

Lemma join_absolute_l a b :
  PyStr.startswith a sep = true -> PyStr.startswith (join a b) sep = true.
Proof.
  intros Ha. unfold join. destruct (PyStr.startswith b sep) eqn:Hb; [done|].
  apply startswith_inv in Ha as [t ->]. unfold sep.
  destruct (_ || _); by rewrite !app_cons, startswith_cons, startswith_empty.
Qed.

Lemma absolutize_idempotent build_dir flag path :
  flag = "-I" \/ flag = "-L" ->
  PyStr.startswith build_dir sep = true \/ PyStr.startswith path sep = true ->
  CobolCompiler.absolutize build_dir
    (CobolCompiler.absolutize build_dir (flag +:+ path))
  = CobolCompiler.absolutize build_dir (flag +:+ path).
Proof.
  intros Hflag Habs. rewrite !absolutize_flag by done. f_equal.
  assert (PyStr.startswith (join build_dir path) sep = true) as Hj.
  { destruct Habs as [Hb|Hp]; [by apply join_absolute_l|].
    by rewrite join_absolute_r. }
  rewrite join_absolute_r by (by apply normpath_absolute).
  apply normpath_idempotent.
Qed.

Lemma canon_head_cases k c comps :
  NormalForm.canon k (c :: comps) -> c = ".." \/ NormalForm.plain c.
Proof.
  intros (ups & rest & Heq & Hups & Hrest & _).
  destruct ups as [|u ups]; simpl in Heq.
  - subst rest. right. by inversion Hrest.
  - injection Heq as <- _. left. by inversion Hups.
Qed.

(** A normal form that renders as the empty string or as a single dot
    has no components. *)
Lemma join_canon_empty k comps :
  NormalForm.canon k comps ->
  PyStr.join sep comps = "" \/ PyStr.join sep comps = "." -> comps = [].
Proof.
  intros Hc Hj. destruct comps as [|c comps]; [done|]. exfalso.
  destruct (canon_head _ _ _ Hc) as (a & c' & -> & _ & _).
  assert (String a c' <> ".") as Hdot.
  { destruct (canon_head_cases _ _ _ Hc) as [Hup|(_ & Hd & _)]; [by rewrite Hup|done]. }
  destruct comps as [|c2 comps].
  - simpl in Hj. by destruct Hj.
  - change (PyStr.join sep (String a c' :: c2 :: comps))
      with (String a c' +:+ sep +:+ PyStr.join sep (c2 :: comps)) in Hj.
    rewrite app_cons in Hj. destruct Hj as [Hj|Hj]; [done|].
    injection Hj as _ Hj. by destruct c'.
Qed.

Lemma startswith_app_nonempty (b x : string) c :
  b <> "" ->
  PyStr.startswith (b +:+ x) (String c "") = PyStr.startswith b (String c "").
Proof.
  destruct b as [|a b]; [done|]. intros _.
  by rewrite app_cons, !startswith_cons, !startswith_empty.
Qed.

Lemma endswith_inv (s : string) c :
  PyStr.endswith s (String c "") = true -> exists s', s = s' +:+ String c "".
Proof.
  induction s as [|a s IH]; [done|]. rewrite endswith_cons.
  destruct s as [|b s].
  - intros ->%Ascii.eqb_eq. by exists "".
  - intros (s' & ->)%IH. by exists (String a s').
Qed.

Lemma normpath_relative p :
  PyStr.startswith p sep = false -> PyStr.startswith (normpath p) sep = false.
Proof.
  intros Hrel. destruct (decide (p = "")) as [->|Hp]; [done|].
  rewrite normpath_unfold by done. cbv zeta.
  rewrite (initial_slashes_0 _ Hrel).
  change (NormalForm.render 0 ?c) with (PyStr.join sep c).
  destruct (String.eqb_spec
              (PyStr.join sep (foldl (normpath_step 0) [] (PyStr.split "/" p))) "");
    [done|].
  eapply join_no_leading_sep, foldl_canon; [apply canon_nil|apply split_no_sep].
Qed.

(** A build directory that [normpath] takes to [.] is relative and
    leaves no component behind. *)
Lemma normpath_dot_comps b :
  b <> "" -> normpath b = "." ->
  PyStr.startswith b sep = false
  /\ foldl (normpath_step 0) [] (PyStr.split "/" b) = [].
Proof.
  intros Hb Hdot.
  assert (PyStr.startswith b sep = false) as Hrel.
  { destruct (PyStr.startswith b sep) eqn:Habs; [|done].
    apply normpath_absolute in Habs. by rewrite Hdot in Habs. }
  split; [done|].
  rewrite normpath_unfold in Hdot by done. cbv zeta in Hdot.
  rewrite (initial_slashes_0 _ Hrel) in Hdot.
  change (NormalForm.render 0 ?c) with (PyStr.join sep c) in Hdot.
  eapply (join_canon_empty 0).
  { apply foldl_canon; [apply canon_nil|apply split_no_sep]. }
  destruct (String.eqb_spec
              (PyStr.join sep (foldl (normpath_step 0) [] (PyStr.split "/" b))) "");
    [by left|by right].
Qed.

(** Joining a relative path to such a build directory and normalising
    is normalising the path alone. *)
Lemma normpath_join_dot b p :
  normpath b = "." -> PyStr.startswith p sep = false ->
  normpath (join b p) = normpath p.
Proof.
  intros Hdot Hrel.
  destruct (decide (p = "")) as [->|Hp]; [by rewrite normpath_join_empty|].
  unfold join. rewrite Hrel.
  destruct (String.eqb_spec b "") as [->|Hb]; [done|]. simpl orb.
  destruct (normpath_dot_comps b Hb Hdot) as [Hbrel Hcomps].
  assert (forall x, normpath (b +:+ x) =
            let r := PyStr.join sep
                       (foldl (normpath_step 0) [] (PyStr.split "/" (b +:+ x))) in
            if String.eqb r "" then "." else r) as Hunfold.
  { intros x. rewrite normpath_unfold by (by destruct b). cbv zeta.
    rewrite initial_slashes_0; [done|].
    unfold sep. by rewrite startswith_app_nonempty. }
  assert (normpath p =
            let r := PyStr.join sep
                       (foldl (normpath_step 0) [] (PyStr.split "/" p)) in
            if String.eqb r "" then "." else r) as ->.
  { rewrite normpath_unfold by done. cbv zeta. by rewrite initial_slashes_0. }
  destruct (PyStr.endswith b sep) eqn:Hend.
  - rewrite Hunfold. cbv zeta.
    apply endswith_inv in Hend as (b' & ->).
    rewrite split_app_sep, foldl_app in Hcomps. simpl in Hcomps.
    rewrite step_skip in Hcomps by (by left).
    by rewrite app_assoc, app_cons, app_empty_l, split_app_sep, foldl_app, Hcomps.
  - rewrite Hunfold. cbv zeta.
    change (b +:+ sep +:+ p) with (b +:+ String "/" p).
    by rewrite split_app_sep, foldl_app, Hcomps.
Qed.

Lemma absolutize_idempotent_dot build_dir flag path :
  flag = "-I" \/ flag = "-L" ->
  normpath build_dir = "." ->
  CobolCompiler.absolutize build_dir
    (CobolCompiler.absolutize build_dir (flag +:+ path))
  = CobolCompiler.absolutize build_dir (flag +:+ path).
Proof.
  intros Hflag Hdot.
  destruct (PyStr.startswith path sep) eqn:Hrel.
  { apply absolutize_idempotent; [done|by right]. }
  rewrite !absolutize_flag by done. f_equal.
  rewrite (normpath_join_dot _ _ Hdot Hrel).
  rewrite normpath_join_dot by (done || by apply normpath_relative).
  apply normpath_idempotent.
Qed.

(** What a second application does to an [-I]/[-L] token. *)
Lemma absolutize_twice_flag build_dir flag path :
  flag = "-I" \/ flag = "-L" ->
  CobolCompiler.absolutize build_dir
    (CobolCompiler.absolutize build_dir (flag +:+ path))
  = flag +:+ normpath (join build_dir (normpath (join build_dir path))).
Proof. intros Hflag. by rewrite !absolutize_flag. Qed.

(** One instance in which a second application changes the list: for
    [["-Iinc"]] and the build directory [build], one application gives
    [["-Ibuild/inc"]] and two give [["-Ibuild/build/inc"]]. *)
Lemma relative_build_dir_not_idempotent :
  CobolCompiler.compute_parameters_with_absolute_paths Samples.cobc
    ["-Iinc"] "build" = ["-Ibuild/inc"]
  /\ CobolCompiler.compute_parameters_with_absolute_paths Samples.cobc
       (CobolCompiler.compute_parameters_with_absolute_paths Samples.cobc
          ["-Iinc"] "build") "build"
     = ["-Ibuild/build/inc"]
  /\ CobolCompiler.compute_parameters_with_absolute_paths Samples.cobc
       (CobolCompiler.compute_parameters_with_absolute_paths Samples.cobc
          ["-Iinc"] "build") "build"
     <> CobolCompiler.compute_parameters_with_absolute_paths Samples.cobc
          ["-Iinc"] "build".
Proof. split; [|split]; [by vm_compute..|]. vm_compute. discriminate. Qed.

(** C4, amended: applying the function twice with the same build
    directory gives what one application gives exactly when, for every
    [-I]/[-L] token, normalising the join of the build directory with
    the path already produced gives that path again.  This is so
    whenever the build directory is absolute, whenever [normpath] takes
    the build directory to [.] (the empty string among them), and
    whenever the path of every [-I]/[-L] token is absolute. *)
Theorem compute_parameters_idempotent (self : CobolCompiler.t)
    (parameter_list : list string) (build_dir : string) :
  (CobolCompiler.compute_parameters_with_absolute_paths self
     (CobolCompiler.compute_parameters_with_absolute_paths self parameter_list
        build_dir) build_dir
   = CobolCompiler.compute_parameters_with_absolute_paths self parameter_list
       build_dir
   <-> forall flag path, flag = "-I" \/ flag = "-L" ->
         flag +:+ path ∈ parameter_list ->
         normpath (join build_dir (normpath (join build_dir path)))
         = normpath (join build_dir path))
  /\ (PyStr.startswith build_dir "/" = true
      \/ normpath build_dir = "."
      \/ (forall flag path, flag = "-I" \/ flag = "-L" ->
            flag +:+ path ∈ parameter_list -> PyStr.startswith path "/" = true) ->
      CobolCompiler.compute_parameters_with_absolute_paths self
        (CobolCompiler.compute_parameters_with_absolute_paths self parameter_list
           build_dir) build_dir
      = CobolCompiler.compute_parameters_with_absolute_paths self parameter_list
          build_dir).
Proof.
  rewrite !compute_parameters_map, <- list_fmap_compose. split.
  - rewrite <- Forall_fmap_ext, Forall_forall. split.
    + intros Hall flag path Hflag Hin. specialize (Hall _ Hin). simpl in Hall.
      rewrite absolutize_twice_flag, absolutize_flag in Hall by done.
      by apply (inj (String.append flag)) in Hall.
    + intros Hfix i Hi. simpl.
      destruct (CobolCompiler.is_path_flag i) eqn:Hflag.
      * destruct (is_path_flag_inv _ Hflag) as (flag & Hf & Heq).
        rewrite Heq in Hi |- *.
        rewrite absolutize_twice_flag, absolutize_flag by done.
        f_equal. by apply (Hfix flag).
      * unfold CobolCompiler.absolutize. by rewrite !Hflag.
  - intros Hcases. apply Forall_fmap_ext_1, Forall_forall. intros i Hi. simpl.
    destruct (CobolCompiler.is_path_flag i) eqn:Hflag.
    + destruct (is_path_flag_inv _ Hflag) as (flag & Hf & Heq).
      rewrite Heq in Hi |- *.
      destruct Hcases as [Hb|[Hdot|Hp]].
      * apply absolutize_idempotent; [done|by left].
      * by apply absolutize_idempotent_dot.
      * apply absolutize_idempotent; [done|right]. by apply (Hp flag).
    + unfold CobolCompiler.absolutize. by rewrite !Hflag.
Qed.

End Idempotence.

Lemma compute_parameters_idempotent_witness :
  CobolCompiler.compute_parameters_with_absolute_paths Samples.cobc
    (CobolCompiler.compute_parameters_with_absolute_paths Samples.cobc
       ["-Iinc"; "-c"; "-L/opt/../lib"] "sub/..") "sub/.."
  = CobolCompiler.compute_parameters_with_absolute_paths Samples.cobc
      ["-Iinc"; "-c"; "-L/opt/../lib"] "sub/..".
Proof.
  apply (compute_parameters_idempotent Samples.cobc
           ["-Iinc"; "-c"; "-L/opt/../lib"] "sub/..").
  right. left. reflexivity.
Defined.

(** ** Every outcome of the sanity probe *)

Section ProbeOutcomes.
Import CobolCompiler.

Variable name_string : CobolCompiler.t -> string.
Variables (self : CobolCompiler.t) (work_dir : string).
Variable environment : Environment.
Variables (h : Host.t) (hist : list Host.event).

Local Abbreviation source_name := (probe_source_name work_dir).
Local Abbreviation output_name := (probe_output_name work_dir).
Local Abbreviation compile_args := (probe_compile_args self work_dir).
Local Abbreviation write_event := (Host.WriteFile source_name content).
Local Abbreviation compile_event := (Host.Popen compile_args work_dir).
Local Abbreviation run_event := (Host.Call output_name).

#[local] Set Warnings "-clear-no-such-hyp".

(** The probe, branch by branch, in terms of what the host answers. *)
Lemma sanity_check_cases :
  sanity_check name_string self work_dir environment h hist
  = if Host.write_ok h hist source_name content then
      match Host.popen_returncode h (hist ++ [write_event]) compile_args work_dir with
      | None => (hist ++ [write_event; compile_event], inl (Host.OSError compile_event))
      | Some returncode =>
          if returncode =? 0 then
            if is_cross self then (hist ++ [write_event; compile_event], inr tt)
            else
              match Host.call_returncode h (hist ++ [write_event; compile_event])
                      output_name with
              | None => (hist ++ [write_event; compile_event; run_event],
                         inl (Host.OSError run_event))
              | Some returncode' =>
                  (hist ++ [write_event; compile_event; run_event],
                   if returncode' =? 0 then inr tt
                   else inl (not_runnable name_string self))
              end
          else (hist ++ [write_event; compile_event],
                inl (cannot_compile name_string self))
      end
    else (hist ++ [write_event], inl (Host.OSError write_event)).
Proof.
  unfold sanity_check, Host.bind, Host.write_file, Host.popen_wait, Host.call.
  fold (probe_source_name work_dir). fold (probe_output_name work_dir).
  fold (probe_compile_args self work_dir).
  destruct (Host.write_ok h hist source_name content); [|done].
  rewrite <- !(assoc_L (++)). simpl app.
  destruct (Host.popen_returncode _ _ _ _) as [returncode|]; [|done].
  destruct (returncode =? 0); simpl; [|done].
  destruct (is_cross self); [done|].
  rewrite <- !(assoc_L (++)). simpl app.
  destruct (Host.call_returncode _ _ _) as [returncode'|]; [|done].
  by destruct (returncode' =? 0).
Qed.

(** X1: on a native toolchain whose compile step and produced binary
    both exit 0 the probe returns normally, after the write, the compile
    step and the run of the binary, in that order. *)
Theorem sanity_check_native_success :
  Host.write_ok h hist source_name content = true ->
  Host.popen_returncode h (hist ++ [write_event]) compile_args work_dir = Some 0 ->
  is_cross self = false ->
  Host.call_returncode h (hist ++ [write_event; compile_event]) output_name
  = Some 0 ->
  sanity_check name_string self work_dir environment h hist
  = (hist ++ [write_event; compile_event; run_event], inr tt).
Proof.
  intros Hw Hc Hcross Hrun. by rewrite sanity_check_cases, Hw, Hc, Hcross, Hrun.
Qed.

(** X2: when the source file cannot be written the error of the write
    is what the probe raises, and no child process is started. *)
Theorem sanity_check_write_failure :
  Host.write_ok h hist source_name content = false ->
  sanity_check name_string self work_dir environment h hist
  = (hist ++ [write_event], inl (Host.OSError write_event)).
Proof. intros Hw. by rewrite sanity_check_cases, Hw. Qed.

(** X3: when the compiler cannot be started the error of that call is
    what the probe raises (not an [EnvironmentException]), and the
    binary is not run. *)
Theorem sanity_check_compiler_not_started :
  Host.write_ok h hist source_name content = true ->
  Host.popen_returncode h (hist ++ [write_event]) compile_args work_dir = None ->
  sanity_check name_string self work_dir environment h hist
  = (hist ++ [write_event; compile_event], inl (Host.OSError compile_event)).
Proof. intros Hw Hc. by rewrite sanity_check_cases, Hw, Hc. Qed.

(** X4: on a cross toolchain the probe never runs a produced binary,
    whatever the host answers. *)
Theorem sanity_check_cross_never_runs :
  is_cross self = true ->
  exists new,
    (sanity_check name_string self work_dir environment h hist).1 = hist ++ new
    /\ forall prog, Host.Call prog ∉ new.
Proof.
  intros Hcross. rewrite sanity_check_cases, Hcross.
  destruct (Host.write_ok h hist source_name content).
  - exists [write_event; compile_event]. split.
    + destruct (Host.popen_returncode _ _ _ _) as [rc|]; [|done].
      by destruct (rc =? 0).
    + intros prog Hin. rewrite !elem_of_cons in Hin.
      destruct Hin as [?|[?|Hin]]; [done..|]. by apply elem_of_nil in Hin.
  - exists [write_event]. split; [done|].
    intros prog Hin. rewrite !elem_of_cons in Hin.
    destruct Hin as [?|Hin]; [done|]. by apply elem_of_nil in Hin.
Qed.

(** X5: the probe returns normally exactly when the file was written,
    the compile step exited 0 and, unless the toolchain is a cross
    toolchain, the produced binary exited 0 as well. *)
Theorem sanity_check_success_iff :
  (sanity_check name_string self work_dir environment h hist).2 = inr tt
  <-> Host.write_ok h hist source_name content = true
      /\ Host.popen_returncode h (hist ++ [write_event]) compile_args work_dir
         = Some 0
      /\ (is_cross self = true
          \/ Host.call_returncode h (hist ++ [write_event; compile_event])
               output_name = Some 0).
Proof.
  rewrite sanity_check_cases.
  destruct (Host.write_ok h hist source_name content); [|naive_solver].
  destruct (Host.popen_returncode _ _ _ _) as [rc|]; [|naive_solver].
  destruct (Z.eqb_spec rc 0) as [->|Hrc]; [|simpl; naive_solver].
  destruct (is_cross self); [naive_solver|].
  destruct (Host.call_returncode _ _ _) as [rc'|]; [|naive_solver].
  destruct (Z.eqb_spec rc' 0) as [->|Hrc']; simpl; naive_solver.
Qed.

(** X6: the probe makes one, two or three calls to the host, the write
    first, and it runs the produced binary exactly when the file was
    written, the compile step exited 0 and the toolchain is native. *)
Theorem sanity_check_history :
  exists new,
    (sanity_check name_string self work_dir environment h hist).1 = hist ++ new
    /\ (new = [write_event] \/ new = [write_event; compile_event]
        \/ new = [write_event; compile_event; run_event])
    /\ (run_event ∈ new
        <-> Host.write_ok h hist source_name content = true
            /\ Host.popen_returncode h (hist ++ [write_event]) compile_args work_dir
               = Some 0
            /\ is_cross self = false).
Proof.
  rewrite sanity_check_cases.
  assert (run_event ∉ [write_event]) as H1.
  { rewrite elem_of_cons, elem_of_nil. naive_solver. }
  assert (run_event ∉ [write_event; compile_event]) as H2.
  { rewrite !elem_of_cons, elem_of_nil. naive_solver. }
  assert (run_event ∈ [write_event; compile_event; run_event]) as H3.
  { rewrite !elem_of_cons. naive_solver. }
  destruct (Host.write_ok h hist source_name content);
    [|exists [write_event]; naive_solver].
  destruct (Host.popen_returncode _ _ _ _) as [rc|];
    [|exists [write_event; compile_event]; naive_solver].
  destruct (Z.eqb_spec rc 0) as [->|Hrc];
    [|exists [write_event; compile_event]; simpl; naive_solver].
  destruct (is_cross self);
    [exists [write_event; compile_event]; naive_solver|].
  exists [write_event; compile_event; run_event].
  destruct (Host.call_returncode _ _ _); naive_solver.
Qed.

End ProbeOutcomes.

Lemma sanity_check_native_success_witness :
  CobolCompiler.sanity_check Samples.name_string Samples.cobc "/w"
    CobolCompiler.environment_object (Samples.fixed_host 0 0) []
  = ([Host.WriteFile "/w/coboltest.cob" CobolCompiler.content;
      Host.Popen ["cobc"; "-x"; "-o"; "/w/coboltest"; "coboltest.cob"] "/w";
      Host.Call "/w/coboltest"],
     inr tt).
Proof.
  apply (sanity_check_native_success Samples.name_string Samples.cobc "/w"
           CobolCompiler.environment_object (Samples.fixed_host 0 0) []).
  - reflexivity.
  - reflexivity.
  - reflexivity.
  - reflexivity.
Defined.

Lemma sanity_check_write_failure_witness :
  CobolCompiler.sanity_check Samples.name_string Samples.cobc "/ro"
    CobolCompiler.environment_object FailingHosts.read_only []
  = ([Host.WriteFile "/ro/coboltest.cob" CobolCompiler.content],
     inl (Host.OSError (Host.WriteFile "/ro/coboltest.cob" CobolCompiler.content))).
Proof.
  apply (sanity_check_write_failure Samples.name_string Samples.cobc "/ro"
           CobolCompiler.environment_object FailingHosts.read_only []).
  reflexivity.
Defined.

Lemma sanity_check_compiler_not_started_witness :
  CobolCompiler.sanity_check Samples.name_string Samples.cobc "/w"
    CobolCompiler.environment_object FailingHosts.no_programs []
  = ([Host.WriteFile "/w/coboltest.cob" CobolCompiler.content;
      Host.Popen ["cobc"; "-x"; "-o"; "/w/coboltest"; "coboltest.cob"] "/w"],
     inl (Host.OSError
            (Host.Popen ["cobc"; "-x"; "-o"; "/w/coboltest"; "coboltest.cob"] "/w"))).
Proof.
  apply (sanity_check_compiler_not_started Samples.name_string Samples.cobc "/w"
           CobolCompiler.environment_object FailingHosts.no_programs []).
  - reflexivity.
  - reflexivity.
Defined.

Lemma sanity_check_cross_never_runs_witness :
  exists new,
    (CobolCompiler.sanity_check Samples.name_string Samples.cross_cobc "/w"
       CobolCompiler.environment_object (Samples.fixed_host 1 0) []).1
    = [] ++ new
    /\ forall prog, Host.Call prog ∉ new.
Proof.
  apply (sanity_check_cross_never_runs Samples.name_string Samples.cross_cobc "/w"
           CobolCompiler.environment_object (Samples.fixed_host 1 0) []).
  reflexivity.
Defined.

(** ** What the normalised parameter list looks like *)

Section NormalisedParameters.
Import posixpath CobolCompiler.

Variable self : CobolCompiler.t.

Lemma is_path_flag_flag flag (x : string) :
  flag = "-I" \/ flag = "-L" -> CobolCompiler.is_path_flag (flag +:+ x) = true.
Proof.
  unfold CobolCompiler.is_path_flag.
  intros [-> | ->]; by rewrite app_two, slice_to_2_cons.
Qed.

Lemma is_path_flag_absolutize build_dir i :
  CobolCompiler.is_path_flag (CobolCompiler.absolutize build_dir i)
  = CobolCompiler.is_path_flag i.
Proof.
  destruct (CobolCompiler.is_path_flag i) eqn:Hflag.
  - destruct (is_path_flag_inv _ Hflag) as (flag & Hf & ->).
    rewrite absolutize_flag by done. by apply is_path_flag_flag.
  - unfold CobolCompiler.absolutize. by rewrite Hflag.
Qed.

Lemma join_empty_l b : join "" b = b.
Proof. unfold join. by destruct (PyStr.startswith b sep). Qed.

(** An absolute path goes to one or two slashes followed by ordinary
    components joined by single slashes. *)
Lemma normpath_absolute_shape p :
  PyStr.startswith p sep = true ->
  exists k comps,
    (1 <= k <= 2)%nat /\ Forall NormalForm.plain comps
    /\ normpath p = PyStr.repeat sep k +:+ PyStr.join sep comps.
Proof.
  intros Habs.
  destruct (normpath_shape p) as (k & comps & Hc & Hk & -> & Hk0).
  specialize (Hk0 Habs). exists k, comps. split; [lia|]. split.
  - destruct Hc as (ups & rest & -> & _ & Hrest & Hups). by rewrite (Hups Hk0).
  - unfold NormalForm.render. destruct k as [|k]; [done|]. simpl Nat.eqb. cbv iota.
    change (PyStr.repeat sep (S k)) with (String "/" ("" +:+ PyStr.repeat sep k)).
    by rewrite app_cons.
Qed.

(** X7: normalising a concatenation is concatenating the normalised parts. *)
Theorem compute_parameters_app (l1 l2 : list string) build_dir :
  compute_parameters_with_absolute_paths self (l1 ++ l2) build_dir
  = compute_parameters_with_absolute_paths self l1 build_dir
    ++ compute_parameters_with_absolute_paths self l2 build_dir.
Proof. by rewrite !compute_parameters_map, fmap_app. Qed.

(** X8: no token of the result is a bare [-I] or a bare [-L]. *)
Theorem compute_parameters_no_bare_flag (parameter_list : list string) build_dir
    (flag : string) :
  flag = "-I" \/ flag = "-L" ->
  flag ∉ compute_parameters_with_absolute_paths self parameter_list build_dir.
Proof.
  intros Hflag. rewrite compute_parameters_map.
  intros (i & Heq & _)%list_elem_of_fmap.
  destruct (CobolCompiler.is_path_flag i) eqn:Hi.
  - destruct (is_path_flag_inv _ Hi) as (flag' & Hf' & Hi').
    rewrite Hi', absolutize_flag in Heq by done.
    pose proof (normpath_nonempty (join build_dir (PyStr.slice_from i 2))) as Hne.
    destruct (normpath (join build_dir (PyStr.slice_from i 2))) as [|a r]; [done|].
    destruct Hflag as [-> | ->], Hf' as [-> | ->]; discriminate Heq.
  - unfold CobolCompiler.absolutize in Heq. rewrite Hi in Heq. subst i.
    destruct Hflag as [-> | ->]; discriminate Hi.
Qed.

(** X9: against an absolute build directory the path of every [-I]/[-L]
    token of the result is absolute and free of empty, [.] and [..]
    components: one or two slashes, then ordinary names joined by
    single slashes. *)
Theorem compute_parameters_absolute_shape (parameter_list : list string)
    build_dir (idx : nat) (flag path : string) :
  PyStr.startswith build_dir "/" = true ->
  flag = "-I" \/ flag = "-L" ->
  parameter_list !! idx = Some (flag +:+ path) ->
  exists k comps,
    (1 <= k <= 2)%nat /\ Forall NormalForm.plain comps
    /\ compute_parameters_with_absolute_paths self parameter_list build_dir !! idx
       = Some (flag +:+ PyStr.repeat "/" k +:+ PyStr.join "/" comps).
Proof.
  intros Habs Hflag Hidx.
  destruct (normpath_absolute_shape (join build_dir path)) as (k & comps & Hk & Hp & Hn).
  { by apply join_absolute_l. }
  exists k, comps. split; [done|]. split; [done|].
  by rewrite (compute_parameters_lookup _ _ _ _ _ Hidx), absolutize_flag, Hn.
Qed.

(** X10: the positions that hold an [-I]/[-L] token are the same in the
    result as in the input. *)
Theorem compute_parameters_flag_positions (parameter_list : list string)
    build_dir (idx : nat) :
  CobolCompiler.is_path_flag
    <$> (compute_parameters_with_absolute_paths self parameter_list build_dir !! idx)
  = CobolCompiler.is_path_flag <$> (parameter_list !! idx).
Proof.
  rewrite compute_parameters_map, list_lookup_fmap.
  destruct (parameter_list !! idx) as [i|]; [|done]. simpl.
  by rewrite is_path_flag_absolutize.
Qed.

(** X11: a list without [-I]/[-L] tokens is returned as it is. *)
Theorem compute_parameters_no_flags (parameter_list : list string) build_dir :
  Forall (fun i => CobolCompiler.is_path_flag i = false) parameter_list ->
  compute_parameters_with_absolute_paths self parameter_list build_dir
  = parameter_list.
Proof.
  intros Hall. rewrite compute_parameters_map.
  rewrite <- (list_fmap_id parameter_list) at 2.
  apply Forall_fmap_ext_1. eapply Forall_impl; [exact Hall|].
  intros i Hi. unfold CobolCompiler.absolutize. by rewrite Hi.
Qed.

(** X12: when the path of every [-I]/[-L] token is absolute the build
    directory plays no part in the result. *)
Theorem compute_parameters_absolute_suffixes (parameter_list : list string)
    build_dir build_dir' :
  (forall flag path, flag = "-I" \/ flag = "-L" ->
     flag +:+ path ∈ parameter_list -> PyStr.startswith path "/" = true) ->
  compute_parameters_with_absolute_paths self parameter_list build_dir
  = compute_parameters_with_absolute_paths self parameter_list build_dir'.
Proof.
  intros Habs. rewrite !compute_parameters_map.
  apply Forall_fmap_ext_1, Forall_forall. intros i Hi.
  destruct (CobolCompiler.is_path_flag i) eqn:Hflag.
  - destruct (is_path_flag_inv _ Hflag) as (flag & Hf & Heq).
    rewrite Heq in Hi |- *. rewrite !absolutize_flag by done.
    by rewrite !join_absolute_r by (by apply (Habs flag)).
  - unfold CobolCompiler.absolutize. by rewrite Hflag.
Qed.

(** X13: with the empty string as build directory nothing is prefixed:
    the path of an [-I]/[-L] token is only normalised. *)
Theorem compute_parameters_empty_build_dir (parameter_list : list string)
    (idx : nat) (flag path : string) :
  flag = "-I" \/ flag = "-L" ->
  parameter_list !! idx = Some (flag +:+ path) ->
  compute_parameters_with_absolute_paths self parameter_list "" !! idx
  = Some (flag +:+ normpath path).
Proof.
  intros Hflag Hidx.
  by rewrite (compute_parameters_lookup _ _ _ _ _ Hidx), absolutize_flag,
       join_empty_l.
Qed.

(** X14: a list normalised against an absolute build directory is left
    as it is by a later normalisation against any build directory. *)
Theorem compute_parameters_stable (parameter_list : list string)
    build_dir build_dir' :
  PyStr.startswith build_dir "/" = true ->
  compute_parameters_with_absolute_paths self
    (compute_parameters_with_absolute_paths self parameter_list build_dir) build_dir'
  = compute_parameters_with_absolute_paths self parameter_list build_dir.
Proof.
  intros Habs. rewrite !compute_parameters_map, <- list_fmap_compose.
  apply Forall_fmap_ext_1, Forall_forall. intros i _. simpl.
  destruct (CobolCompiler.is_path_flag i) eqn:Hflag.
  - destruct (is_path_flag_inv _ Hflag) as (flag & Hf & ->).
    rewrite !absolutize_flag by done. f_equal.
    rewrite join_absolute_r by (by apply normpath_absolute, join_absolute_l).
    apply normpath_idempotent.
  - unfold CobolCompiler.absolutize. by rewrite !Hflag.
Qed.

End NormalisedParameters.

Lemma compute_parameters_no_bare_flag_witness :
  "-I" ∉ CobolCompiler.compute_parameters_with_absolute_paths Samples.cobc
           ["-I"; "-L"; "-c"] "".
Proof.
  apply (compute_parameters_no_bare_flag Samples.cobc ["-I"; "-L"; "-c"] "" "-I").
  left. reflexivity.
Defined.

Lemma compute_parameters_absolute_shape_witness :
  exists k comps,
    (1 <= k <= 2)%nat /\ Forall NormalForm.plain comps
    /\ CobolCompiler.compute_parameters_with_absolute_paths Samples.cobc
         ["-c"; "-I../inc/./sub"] "//srv/build" !! 1%nat
       = Some ("-I" +:+ PyStr.repeat "/" k +:+ PyStr.join "/" comps).
Proof.
  apply (compute_parameters_absolute_shape Samples.cobc ["-c"; "-I../inc/./sub"]
           "//srv/build" 1 "-I" "../inc/./sub").
  - reflexivity.
  - left. reflexivity.
  - reflexivity.
Defined.

Lemma compute_parameters_no_flags_witness :
  CobolCompiler.compute_parameters_with_absolute_paths Samples.cobc
    ["-c"; "-o"; "x"; "-"; ""] "/b"
  = ["-c"; "-o"; "x"; "-"; ""].
Proof.
  apply (compute_parameters_no_flags Samples.cobc ["-c"; "-o"; "x"; "-"; ""] "/b").
  repeat constructor.
Defined.

Lemma compute_parameters_absolute_suffixes_witness :
  CobolCompiler.compute_parameters_with_absolute_paths Samples.cobc
    ["-I/usr/../opt/inc"; "-c"] "build"
  = CobolCompiler.compute_parameters_with_absolute_paths Samples.cobc
      ["-I/usr/../opt/inc"; "-c"] "/elsewhere".
Proof.
  apply (compute_parameters_absolute_suffixes Samples.cobc
           ["-I/usr/../opt/inc"; "-c"] "build" "/elsewhere").
  intros flag path Hflag Hin.
  apply elem_of_cons in Hin as [Heq|Hin].
  - destruct Hflag as [-> | ->]; [|discriminate Heq].
    apply (inj (String.append "-I") path "/usr/../opt/inc") in Heq.
    rewrite Heq. reflexivity.
  - apply elem_of_cons in Hin as [Heq|Hin].
    + destruct Hflag as [-> | ->]; discriminate Heq.
    + by apply elem_of_nil in Hin.
Defined.

Lemma compute_parameters_empty_build_dir_witness :
  CobolCompiler.compute_parameters_with_absolute_paths Samples.cobc
    ["-La/../b"] "" !! 0%nat
  = Some ("-L" +:+ posixpath.normpath "a/../b").
Proof.
  apply (compute_parameters_empty_build_dir Samples.cobc ["-La/../b"] 0 "-L"
           "a/../b").
  - right. reflexivity.
  - reflexivity.
Defined.

Lemma compute_parameters_stable_witness :
  CobolCompiler.compute_parameters_with_absolute_paths Samples.cobc
    (CobolCompiler.compute_parameters_with_absolute_paths Samples.cobc
       ["-Iinc"; "-c"] "/build") "other"
  = CobolCompiler.compute_parameters_with_absolute_paths Samples.cobc
      ["-Iinc"; "-c"] "/build".
Proof.
  apply (compute_parameters_stable Samples.cobc ["-Iinc"; "-c"] "/build" "other").
  reflexivity.
Defined.

(** ** Dependency files, continued *)

Section DepfileNames.
Import PyStr.

Variable self : CobolCompiler.t.

Lemma endswith_app (s t : string) : endswith (s +:+ t) t = true.
Proof.
  unfold endswith. rewrite length_app.
  replace (String.length s + String.length t - String.length t)%nat
    with (String.length s) by lia.
  rewrite drop_app_length, String.eqb_refl, andb_true_r.
  apply Nat.leb_le. lia.
Qed.

Lemma take_app_le (n : nat) (s t : string) :
  (n <= String.length s)%nat -> take n (s +:+ t) = take n s.
Proof.
  revert s. induction n as [|n IH]; intros s Hn; [done|].
  destruct s as [|a s]; simpl in Hn; [lia|].
  rewrite app_cons. simpl. rewrite IH; [done|lia].
Qed.

Lemma slice_to_app_le (s t : string) k :
  0 <= k <= Z.of_nat (String.length s) -> slice_to (s +:+ t) k = slice_to s k.
Proof.
  intros Hk. unfold slice_to. rewrite !clamp_nonneg, length_app by lia.
  rewrite !Nat.min_l by lia. apply take_app_le. lia.
Qed.

Lemma depfile_for_object_root objfile :
  CobolCompiler.depfile_for_object self objfile
  = (posixpath.splitext objfile).1 +:+ ".d".
Proof. reflexivity. Qed.

(** X15: the dependency file name ends in [.d] and lies in the
    directory of the object file: the last slash is at the same index
    and the text up to and including it is the same. *)
Theorem depfile_for_object_directory (objfile : string) :
  let d := CobolCompiler.depfile_for_object self objfile in
  endswith d ".d" = true
  /\ rfind "/" d = rfind "/" objfile
  /\ slice_to d (rfind "/" objfile + 1) = slice_to objfile (rfind "/" objfile + 1).
Proof.
  intros d. subst d. rewrite depfile_for_object_root.
  pose proof (splitext_app objfile) as Hsplit.
  destruct (splitext_ext objfile) as [Hslash _].
  set (root := (posixpath.splitext objfile).1) in *.
  set (ext := (posixpath.splitext objfile).2) in *.
  assert (rfind "/" objfile = rfind "/" root) as Hr.
  { rewrite <- Hsplit. by apply rfind_app_absent. }
  pose proof (rfind_bounds "/" root) as Hb.
  split; [apply endswith_app|]. split.
  - rewrite Hr. by apply rfind_app_absent.
  - rewrite Hr. rewrite <- Hsplit. by rewrite !slice_to_app_le by lia.
Qed.

(** X16: taking the dependency file name of a dependency file name
    changes nothing, as long as the object path without its extension
    ends in a file name that is not made of dots only. *)
Theorem depfile_for_object_idempotent (objfile pre stem : string) :
  (posixpath.splitext objfile).1 = pre +:+ stem ->
  all_are "." stem = false -> contains "/" stem = false ->
  CobolCompiler.depfile_for_object self
    (CobolCompiler.depfile_for_object self objfile)
  = CobolCompiler.depfile_for_object self objfile.
Proof.
  intros Hroot Hall Hslash. rewrite !depfile_for_object_root, Hroot.
  pose proof (splitext_stem_ext pre stem "d" Hall Hslash eq_refl eq_refl) as Hs.
  rewrite <- (app_assoc pre stem) in Hs. change ("." +:+ "d") with ".d" in Hs.
  by rewrite Hs.
Qed.

(** X17: object files that differ in their extension only share one
    dependency file. *)
Theorem depfile_for_object_extension_blind (pre stem e e' : string) :
  all_are "." stem = false -> contains "/" stem = false ->
  contains "/" e = false -> contains "." e = false ->
  contains "/" e' = false -> contains "." e' = false ->
  CobolCompiler.depfile_for_object self (pre +:+ stem +:+ "." +:+ e)
  = CobolCompiler.depfile_for_object self (pre +:+ stem +:+ "." +:+ e').
Proof.
  intros Hall Hslash He1 He2 He1' He2'.
  by rewrite !depfile_for_object_root, !splitext_stem_ext.
Qed.

End DepfileNames.

Lemma depfile_for_object_idempotent_witness :
  CobolCompiler.depfile_for_object Samples.cobc
    (CobolCompiler.depfile_for_object Samples.cobc "obj.dir/main")
  = CobolCompiler.depfile_for_object Samples.cobc "obj.dir/main".
Proof.
  apply (depfile_for_object_idempotent Samples.cobc "obj.dir/main" "obj.dir/" "main");
    reflexivity.
Defined.

Lemma depfile_for_object_extension_blind_witness :
  CobolCompiler.depfile_for_object Samples.cobc ("src/" +:+ "main" +:+ "." +:+ "o")
  = CobolCompiler.depfile_for_object Samples.cobc ("src/" +:+ "main" +:+ "." +:+ "obj").
Proof.
  apply (depfile_for_object_extension_blind Samples.cobc "src/" "main" "o" "obj");
    reflexivity.
Defined.

(** ** Names without an extension *)

Section NoExtension.
Import PyStr.

Lemma all_are_contains c c' (s : string) :
  all_are c s = true -> c' <> c -> contains c' s = false.
Proof.
  intros Hall Hne. induction s as [|a s IH]; [done|].
  simpl in *. apply andb_true_iff in Hall as [Ha Hs].
  apply Ascii.eqb_eq in Ha as ->. rewrite (IH Hs), orb_false_r.
  apply Ascii.eqb_neq. congruence.
Qed.

Lemma all_are_split c (s : string) (n : nat) :
  all_are c s = true -> (n < String.length s)%nat ->
  exists u v, s = u +:+ String c v /\ String.length u = n.
Proof.
  revert n. induction s as [|a s IH]; intros n Hall Hn; simpl in *; [lia|].
  apply andb_true_iff in Hall as [Ha Hs]. apply Ascii.eqb_eq in Ha as ->.
  destruct n as [|n].
  - by exists "", s.
  - destruct (IH n Hs) as (u & v & -> & Hu); [lia|].
    exists (String c u), v. split; [done|]. simpl. by rewrite Hu.
Qed.

Lemma rfind_endswith c (s : string) :
  endswith s (String c "") = true -> rfind c s = Z.of_nat (String.length s) - 1.
Proof.
  induction s as [|a s IH]; [done|].
  rewrite endswith_cons. destruct s as [|b s].
  - intros ->%Ascii.eqb_eq. simpl. by rewrite Ascii.eqb_refl.
  - intros Hend. specialize (IH Hend).
    change (rfind c (String a (String b s)))
      with (let k := rfind c (String b s) in
            if 0 <=? k then k + 1 else if Ascii.eqb a c then 0 else -1).
    cbv zeta. rewrite IH. simpl String.length.
    destruct (Z.leb_spec 0 (Z.of_nat (S (String.length s)) - 1)); lia.
Qed.

(** The scan gives [false] when it meets dots only. *)
Lemma skip_leading_dots_false (n : nat) p filenameIndex dotIndex :
  dotIndex - filenameIndex <= Z.of_nat n ->
  (forall j, filenameIndex <= j < dotIndex -> slice p j (j + 1) = ".") ->
  posixpath.skip_leading_dots p filenameIndex dotIndex = false.
Proof.
  revert filenameIndex. induction n as [|n IH]; intros f Hn Hdots;
    rewrite skip_leading_dots_unfold;
    (destruct (Z_lt_dec f dotIndex); [|done]); [lia|].
  rewrite (Hdots f) by lia. unfold posixpath.extsep. simpl negb. cbv iota.
  apply IH; [lia|]. intros j Hj. apply Hdots. lia.
Qed.

(** A file name that has no dot apart from leading ones has no extension. *)
Lemma splitext_no_extension (pre dots rest : string) :
  pre = "" \/ endswith pre "/" = true ->
  all_are "." dots = true ->
  contains "." rest = false -> contains "/" rest = false ->
  posixpath.splitext (pre +:+ dots +:+ rest) = (pre +:+ dots +:+ rest, "").
Proof.
  intros Hpre Hdots Hdot Hslash. unfold posixpath.splitext.
  rewrite slice_to_0.
  assert (rfind "/" (pre +:+ dots +:+ rest) + 1 = Z.of_nat (String.length pre))
    as Hsep.
  { rewrite rfind_app_absent.
    - destruct Hpre as [->|Hend]; [done|]. rewrite rfind_endswith by done. lia.
    - by rewrite contains_app, (all_are_contains "." "/" dots), Hslash. }
  assert (rfind "." (pre +:+ dots +:+ rest)
          < Z.of_nat (String.length pre + String.length dots)) as Hdotidx.
  { rewrite <- app_assoc, rfind_app_absent by done.
    pose proof (rfind_bounds "." (pre +:+ dots)) as Hb.
    rewrite length_app in Hb. lia. }
  destruct (Z.ltb_spec (rfind "/" (pre +:+ dots +:+ rest))
              (rfind "." (pre +:+ dots +:+ rest))) as [Hlt|Hge]; [|done].
  rewrite Hsep. simpl andb.
  rewrite (skip_leading_dots_false (String.length dots)); [done|lia|].
  intros j Hj.
  destruct (all_are_split "." dots (Z.to_nat (j - Z.of_nat (String.length pre))))
    as (u & v & -> & Hu); [done|lia|].
  replace j with (Z.of_nat (String.length (pre +:+ u)))
    by (rewrite length_app; lia).
  rewrite (app_assoc u), app_cons, <- (app_assoc pre u).
  apply slice_at.
Qed.

(** X18: for such a name (no dot, a hidden file, a name made of dots, a
    path that ends in a slash, the empty string) the dependency file
    name is the whole object path followed by [.d]. *)
Theorem depfile_for_object_no_extension (self : CobolCompiler.t)
    (pre dots rest : string) :
  pre = "" \/ endswith pre "/" = true ->
  all_are "." dots = true ->
  contains "." rest = false -> contains "/" rest = false ->
  CobolCompiler.depfile_for_object self (pre +:+ dots +:+ rest)
  = (pre +:+ dots +:+ rest) +:+ ".d".
Proof.
  intros Hpre Hdots Hdot Hslash.
  by rewrite depfile_for_object_root, splitext_no_extension.
Qed.

End NoExtension.

Lemma depfile_for_object_no_extension_witness :
  CobolCompiler.depfile_for_object Samples.cobc ("obj.dir/" +:+ "." +:+ "hidden")
  = ("obj.dir/" +:+ "." +:+ "hidden") +:+ ".d".
Proof.
  apply (depfile_for_object_no_extension Samples.cobc "obj.dir/" "." "hidden").
  - right. reflexivity.
  - reflexivity.
  - reflexivity.
  - reflexivity.
Defined.

Lemma sanity_check_success_iff_witness :
  (CobolCompiler.sanity_check Samples.name_string Samples.cobc "/w"
     CobolCompiler.environment_object (Samples.fixed_host 0 0) []).2
  = inr tt.
Proof.
  apply (sanity_check_success_iff Samples.name_string Samples.cobc "/w"
           CobolCompiler.environment_object (Samples.fixed_host 0 0) []).
  split; [reflexivity|]. split; [reflexivity|]. right. reflexivity.
Defined.

Lemma sanity_check_history_witness :
  Host.Call (CobolCompiler.probe_output_name "/w")
  ∈ (CobolCompiler.sanity_check Samples.name_string Samples.cobc "/w"
       CobolCompiler.environment_object (Samples.fixed_host 0 0) []).1.
Proof.
  destruct (sanity_check_history Samples.name_string Samples.cobc "/w"
              CobolCompiler.environment_object (Samples.fixed_host 0 0) [])
    as (new & Hnew & _ & Hrun).
  rewrite Hnew. apply Hrun.
  split; [reflexivity|]. split; reflexivity.
Defined.
